(** * Pump Service Checklist: the PDF generation pipeline

    A shallow embedding of the two PDF generators of the repository:
    - [Full]: [src/utils/generatePDF.ts], the multi-page variant with the
      15-item checklist (pump preparation + customer preparation);
    - [PreService]: [src/unnamed/part_003], the single-flow variant with the
      6-item pre-service checklist.

    JavaScript numbers are IEEE binary64 doubles; they are modelled with
    Rocq's primitive floats ([PrimFloat]), whose arithmetic is the kernel's
    binary64 arithmetic with round-to-nearest-even, as in JavaScript.
    The pdfmake document definition is modelled as a tree of [Content]
    blocks, and the asynchronous [generatePDF] as a small promise monad
    that threads a trace of the side effects it performs. *)

From Stdlib Require Import Ascii String List ZArith Bool PrimFloat.
From Stdlib Require Import QArith Qfield.
Import ListNotations.

Set Warnings "-register-all -inexact-float".

Open Scope string_scope.

(* ------------------------------------------------------------------ *)
(** ** Languages and bilingual strings *)

(** [language: 'en' | 'th'] *)
Inductive Language := en | th.

(** A bilingual pair [{ en: '...', th: '...' }]. *)
Record Bi := { bi_en : string; bi_th : string }.

(** [pair[language]]: indexing a bilingual pair by the active language. *)
Definition pick (language : Language) (p : Bi) : string :=
  match language with en => bi_en p | th => bi_th p end.

(** [language === 'en' ? a : b] *)
Definition ternary {A} (language : Language) (a b : A) : A :=
  match language with en => a | th => b end.

(* ------------------------------------------------------------------ *)
(** ** Form data *)

(** [interface FormData]; [training_hours?: string] is optional. *)
Record FormData := {
  company : string;
  site_location : string;
  contact_person : string;
  department : string;
  phone : string;
  email : string;
  pump_model : string;
  serial_number : string;
  manufacture_year : string;
  operating_hours : string;
  last_service_date : string;
  installation_date : string;
  temperature : string;
  flow_rate : string;
  suction_pressure : string;
  discharge_pressure : string;
  total_head : string;
  pumped_medium : string;
  service_reason : string;
  training_hours : option string
}.

(** JavaScript truthiness of a string: only [''] is falsy. *)
Definition truthy (s : string) : bool :=
  match s with EmptyString => false | _ => true end.

(** [s || '-'] for a string [s]. *)
Definition or_dash (s : string) : string := if truthy s then s else "-".

(** Truthiness of an optional string ([undefined] is falsy). *)
Definition truthy_opt (s : option string) : bool :=
  match s with Some s => truthy s | None => false end.

(* ------------------------------------------------------------------ *)
(** ** Blobs and image payloads *)

(** A fetched [Blob]: its MIME type and its bytes; [blob.size] is the
    number of bytes. *)
Record Blob := { blob_type : string; blob_bytes : list Byte.byte }.

Definition size (b : Blob) : Z := Z.of_nat (length (blob_bytes b)).

(** The string a [loadImage] promise resolves to:
    - [PDataURL b]: [FileReader.readAsDataURL(b)], the data URL that carries
      the bytes of [b] unchanged;
    - [PCanvasJpeg w h q b]: [canvas.toDataURL('image/jpeg', q)] after
      [b] was decoded and drawn at [w] x [h];
    - [PEmpty]: the empty string [''] . *)
Inductive Payload :=
| PDataURL (b : Blob)
| PCanvasJpeg (width height quality : float) (b : Blob)
| PEmpty.

(* ------------------------------------------------------------------ *)
(** ** The pdfmake document definition *)

Definition Margin := list float.

(** Canvas elements: [CanvasRect], [CanvasLine], and the filled rounded
    rectangle of the title block of [PreService]. *)
Inductive CanvasElement :=
| CanvasRect (x y w h lineWidth : float) (lineColor : string)
| CanvasLine (x1 y1 x2 y2 lineWidth : float) (lineColor : string)
| CanvasFilledRect (x y w h r : float) (color : string).

(** Column widths: a number, ['auto'] or ['*']. *)
Inductive Width := WNum (n : float) | WAuto | WStar.

(** Image block options ([width], [height], [fit], [alignment], [margin]). *)
Record ImageOpts := {
  img_width : option float;
  img_height : option float;
  img_fit : option (float * float);
  img_alignment : option string;
  img_margin : option Margin
}.

(** A table layout as pdfmake takes it: an object of callbacks.
    [hLineWidth i n] receives the line index [i] and
    [node.table.body.length] as [n]; the other callbacks take no argument
    the code uses. *)
Record TableLayout := {
  hLineWidth : Z -> Z -> float;
  vLineWidth : float;
  hLineColor : string;
  paddingLeft : float;
  paddingRight : float;
  paddingTop : float;
  paddingBottom : float
}.

(** The [layout] property of a table block: the name of one of pdfmake's
    built-in layouts, or a layout object. *)
Inductive Layout := LNamed (name : string) | LObject (l : TableLayout).

Inductive Content :=
| CText (text : string) (style : option string) (margin : option Margin)
| CImage (src : Payload) (opts : ImageOpts)
| CStack (items : list Content) (unbreakable : bool) (margin : option Margin)
| CColumns (cols : list (Width * Content)) (margin : option Margin)
| CCanvas (elems : list CanvasElement)
| CTable (widths : list string) (headerRows : Z) (body : list (list Content))
         (layout : Layout)
| CUl (items : list string) (style : option string).

(** A style dictionary entry (the keys the code uses). *)
Record Style := {
  font : option string;
  fontSize : option float;
  bold : option bool;
  alignment : option string;
  color : option string;
  fillColor : option string;
  lineHeight : option float;
  st_margin : option Margin
}.

Definition style0 : Style :=
  {| font := None; fontSize := None; bold := None; alignment := None;
     color := None; fillColor := None; lineHeight := None; st_margin := None |}.

(** [info] metadata of the document. *)
Record Info := { title : string; author : string; subject : string; keywords : string }.

Record TDocumentDefinitions := {
  info : option Info;
  pageSize : string;
  pageMargins : Margin;
  defaultStyle : Style;
  content : list Content;
  styles : list (string * Style)
}.

(** [pdfMake.fonts]: the registered families, by name, with their files. *)
Definition FontDictionary := list (string * list string).

(* ------------------------------------------------------------------ *)
(** ** The promise monad *)

(** The observable side effects of a [generatePDF] call, in order. *)
Inductive Event :=
| EvImport (module_name : string)   (** [await import(...)] *)
| EvFetch (url : string)            (** [fetch(url)] *)
| EvCreatePdf.                      (** [pdfMake.createPdf(...).getBlob(...)] *)

Inductive Error :=
| ImportFailed (module_name : string)
| FetchFailed (url : string)
| RenderFailed.

(** How a promise settles, if it does: [Pending] is a promise that never
    settles (no callback of its executor is ever called). *)
Inductive Outcome (A : Type) :=
| Resolved (a : A)
| Rejected (e : Error)
| Pending.
Arguments Resolved {A} a.
Arguments Rejected {A} e.
Arguments Pending {A}.

(** An asynchronous computation: from the trace of effects so far to its
    outcome and the extended trace. *)
Definition Async (A : Type) := list Event -> Outcome A * list Event.

Definition ret {A} (a : A) : Async A := fun t => (Resolved a, t).

Definition bind {A B} (m : Async A) (k : A -> Async B) : Async B :=
  fun t =>
    match m t with
    | (Resolved a, t') => k a t'
    | (Rejected e, t') => (Rejected e, t')
    | (Pending, t') => (Pending, t')
    end.

Notation "x <- m ;; k" := (bind m (fun x => k))
  (at level 61, m at next level, right associativity).
Notation "' p <- m ;; k" := (bind m (fun x => match x with p => k end))
  (at level 61, p pattern, m at next level, right associativity).

Definition emit (e : Event) : Async unit := fun t => (Resolved tt, app t [e]).
Definition settle {A} (o : Outcome A) : Async A := fun t => (o, t).

(** [Promise.all([p, q])]: both are started; it rejects when one of them
    rejects, resolves when both resolve, and otherwise never settles.
    When both reject, the rejection of [p] is kept. *)
Definition all2 {A B} (p : Async A) (q : Async B) : Async (A * B) :=
  fun t =>
    let '(oa, t1) := p t in
    let '(ob, t2) := q t1 in
    (match oa, ob with
     | Rejected e, _ => Rejected e
     | _, Rejected e => Rejected e
     | Resolved a, Resolved b => Resolved (a, b)
     | _, _ => Pending
     end, t2).

(* ------------------------------------------------------------------ *)
(** ** The browser environment *)

Record Env := {
  (** [typeof window !== 'undefined'] *)
  window_defined : bool;
  (** [await import(m)]: [false] when the dynamic import rejects *)
  import_ok : string -> bool;
  (** [await (await fetch(url)).blob()]: [None] when it rejects *)
  fetch : string -> option Blob;
  (** [img.src = URL.createObjectURL(blob)]: [Some (img.width, img.height)]
      when the image decodes and [img.onload] fires, [None] otherwise *)
  decode : Blob -> option (float * float);
  (** [canvas.getContext('2d')] is not [null] *)
  context2d : bool;
  (** [pdfMake.createPdf(doc).getBlob(cb)] with the registered fonts:
      [Some b] when [cb] is called with [b], [None] when it throws *)
  getBlob : TDocumentDefinitions -> FontDictionary -> option Blob;
  (** the current date formatted as [dd.mm.yyyy] *)
  today : string
}.

(* ------------------------------------------------------------------ *)
(** ** The image normalizer (identical in both generators) *)

Open Scope float_scope.

(** [const maxImageSize = 500 * 1024] *)
Definition maxImageSize : Z := (500 * 1024)%Z.

(** The dimension computation of [img.onload] in [loadImage]. *)
Definition resize (imgWidth imgHeight : float) : float * float :=
  let aspectRatio := imgWidth / imgHeight in
  let '(width, height) :=
    if PrimFloat.ltb 800 imgWidth
    then let width := 800 in (width, width / aspectRatio)
    else (imgWidth, imgHeight) in
  if PrimFloat.ltb 800 height
  then let height := 800 in (height * aspectRatio, height)
  else (width, height).

(** The payload [img.onload] resolves with, for a decoded image. *)
Definition onload (env : Env) (blob : Blob) (w h : float) : Payload :=
  let '(width, height) := resize w h in
  if context2d env then PCanvasJpeg width height 0.7 blob else PEmpty.

Definition loadImage (env : Env) (url : string) : Async Payload :=
  _ <- emit (EvFetch url) ;;
  match fetch env url with
  | None => settle (Rejected (FetchFailed url))
  | Some blob =>
      if Z.ltb maxImageSize (size blob) then
        (* [new Promise(resolve => { img.onload = ...; img.src = ... })]:
           only [onload] can resolve it *)
        match decode env blob with
        | Some (w, h) => ret (onload env blob w h)
        | None => settle Pending
        end
      else
        (* [reader.readAsDataURL(blob)] *)
        ret (PDataURL blob)
  end.

(* ------------------------------------------------------------------ *)
(** ** Building blocks shared by both generators *)

(** [createCheckboxItem(checked, text)] *)
Definition createCheckboxItem (checked : bool) (text : string) : Content :=
  let box := CanvasRect 0 0 10 10 1 "#374151" in
  let checkmark :=
    if checked
    then [CanvasLine 2 5 4 8 1.5 "#1F2937"; CanvasLine 4 8 8 2 1.5 "#1F2937"]
    else [] in
  CColumns [(WNum 12, CCanvas (box :: checkmark));
            (WAuto, CText text None (Some [5; -2; 0; 0]))]
           (Some [0; 0; 0; 8]).

(** [tableLayout.lightHorizontalLines] *)
Definition lightHorizontalLines : TableLayout := {|
  hLineWidth := fun i n => if (Z.eqb i 0 || Z.eqb i n)%bool then 0 else 0.5;
  vLineWidth := 0;
  hLineColor := "#E5E7EB";
  paddingLeft := 0;
  paddingRight := 0;
  paddingTop := 8;
  paddingBottom := 8
|}.

(** A key/value row [[{ text: label, style: 'label' }, { text: v || '-' }]]. *)
Definition kvRow (label value : string) : list Content :=
  [CText label (Some "label") None; CText (or_dash value) None None].

(** A key/value table as both generators write it. *)
Definition kvTable (body : list (list Content)) : Content :=
  CTable ["30%"; "70%"] 0 body (LNamed "lightHorizontalLines").

(** The post-pass [content.forEach(item => { if ('table' in item)
    item.layout = tableLayout.lightHorizontalLines })]: it visits the
    top-level items of [docDefinition.content] only. *)
Definition applyTableLayout (item : Content) : Content :=
  match item with
  | CTable w hr body _ => CTable w hr body (LObject lightHorizontalLines)
  | other => other
  end.

Definition applyTableLayouts (doc : TDocumentDefinitions) : TDocumentDefinitions :=
  {| info := info doc; pageSize := pageSize doc; pageMargins := pageMargins doc;
     defaultStyle := defaultStyle doc;
     content := map applyTableLayout (content doc);
     styles := styles doc |}.

(** [pdfMake.createPdf(docDefinition).getBlob(resolve)] inside
    [new Promise((resolve, reject) => try ... catch reject)]. *)
Definition createPdf (env : Env) (fonts : FontDictionary)
    (doc : TDocumentDefinitions) : Async (option Blob) :=
  _ <- emit EvCreatePdf ;;
  match getBlob env doc fonts with
  | Some b => ret (Some b)
  | None => settle (Rejected RenderFailed)
  end.

(** The Roboto family as both generators register it. *)
Definition roboto : string * list string :=
  ("Roboto", ["Roboto-Regular.ttf"; "Roboto-Medium.ttf";
              "Roboto-Italic.ttf"; "Roboto-MediumItalic.ttf"]).

(** [formData.training_hours ? `(${formData.training_hours} unit)` : ''] *)
Definition hoursPart (training_hours : option string) (unit : string) : string :=
  match training_hours with
  | Some h => if truthy h then "(" ++ h ++ " " ++ unit ++ ")" else ""
  | None => ""
  end.

(* ================================================================== *)
(** ** [src/utils/generatePDF.ts]: the 15-item multi-page generator *)

Module Full.

(** [interface Checkboxes] *)
Record Checkboxes := {
  system_flush : bool;
  safety_training : bool;
  harmless_form : bool;
  sds : bool;
  alignment_report : bool;
  operation_records : bool;
  power_isolated : bool;
  valves_locked : bool;
  pump_drained : bool;
  auxiliary_disconnected : bool;
  coupling_guard_removed : bool;
  coupling_disconnected : bool;
  pump_cleaned : bool;
  openings_protected : bool;
  photos_taken : bool
}.

(** [const sectionTitles] *)
Module sectionTitles.
Definition customerDetails : Bi := {| bi_en := "1. Customer Details"; bi_th := "1. รายละเอียดลูกค้า" |}.
Definition pumpInfo : Bi := {| bi_en := "2. Pump Information"; bi_th := "2. ข้อมูลปั๊ม" |}.
Definition operatingConditions : Bi := {| bi_en := "3. Operating Conditions"; bi_th := "3. สภาวะการทำงานจริง" |}.
Definition pumpPreparation : Bi := {| bi_en := "4. Pump Preparation (By Customer or WFA)"; bi_th := "4. การเตรียมปั๊ม (โดยลูกค้าหรือ WFA)" |}.
Definition preparationChecklist : Bi := {| bi_en := "5. Customer Preparation Checklist"; bi_th := "5. รายการเตรียมความพร้มองลูกค้า" |}.
Definition preServiceRequirements : Bi := {| bi_en := "Pre-Service Requirements"; bi_th := "ข้อกำหนดก่อนเข้าซ่อม" |}.
Definition importantNotes : Bi := {| bi_en := "Important Notes:"; bi_th := "หลายเหตุสำคัญ:" |}.
End sectionTitles.

(** [const importantNotes] *)
Definition importantNotes : list Bi :=
  [{| bi_en := "All work must be performed by qualified personnel only";
      bi_th := "งานทั้งหมดต้องดำเนินการโดยบุคลากรที่มีคุณสมบัติเท่านั้น" |};
   {| bi_en := "Follow all safety protocols and guidelines";
      bi_th := "ปฏิบัติตามขั้นตอนและแนวทางด้านความปลอดภัยทั้งหมด" |};
   {| bi_en := "Maintain proper documentation throughout the service process";
      bi_th := "รักษาเอกสารที่เหมาะสมตลอดกระบวนการให้บริการ" |};
   {| bi_en := "Use only OEM parts or approved equivalents";
      bi_th := "ใช้เฉพาะชิ้นส่วน OEM หรือชิ้นส่วนที่ได้รับการอนุมัติเท่านั้น" |};
   {| bi_en := "Follow all safety protocols, especially regarding magnetic coupling hazards";
      bi_th := "ปฏิบัติตามโปรโตคอลความปลอดภัยทั้งหมด โดยเฉพาะอย่างยิ่งเกี่ยวกับอันตรายจากการเชื่อมต่อแม่เหล็ก" |};
   {| bi_en := "Refer to manufacturer's manual for specific torque values and clearances";
      bi_th := "อ้างอิงคู่มือของผู้ผลิตสำหรับค่าแรงบิดและระยะห่างที่เฉพาะเจาะจง" |};
   {| bi_en := "Required for magnetic coupling handling - keep sensitive items at minimum 1m distance";
      bi_th := "จำเป็นสำหรับการจัดการการเชื่อมต่อแม่เหล็ก - เก็บรักษาอุปกรณ์ที่มีความอ่อนไหวในระยะห่างอย่างน้อย 1 เมตร" |}].

(** [const docHeader]; [date] embeds the current date. *)
Module docHeader.
Definition company : Bi := {| bi_en := "Water Field Asia Co., Ltd."; bi_th := "บริษท วอเตอร์ฟิลด์ เอเชีย จำกัด" |}.
Definition address1 : Bi := {| bi_en := "623 Soi Onnut 70/1 Sub 2"; bi_th := "623 ซอยอ่อนนุช 70/1 แยก 2" |}.
Definition address2 : Bi := {| bi_en := "Pravet Sub-District, Pravet District,"; bi_th := "แขวงประเวศ เขตประเวศ" |}.
Definition address3 : Bi := {| bi_en := "Bangkok 10250"; bi_th := "กรุงเทพมหานคร 10250" |}.
Definition phone : Bi := {| bi_en := "Tel.: +66 2320 1994"; bi_th := "โทร: +66 2320 1994" |}.
Definition docNo : Bi := {| bi_en := "Document No: FM-WFA-SER-057"; bi_th := "เลขที่เอกสาร: FM-WFA-SER-057" |}.
Definition revision : Bi := {| bi_en := "Revision: 00"; bi_th := "แก้ไขครั้งที่: 00" |}.
Definition date (today : string) : Bi :=
  {| bi_en := "Date: " ++ today; bi_th := "วันที่: " ++ today |}.
End docHeader.

(** [const translations] *)
Module translations.
Definition company : Bi := {| bi_en := "Company:"; bi_th := "บริษท:" |}.
Definition siteLocation : Bi := {| bi_en := "Site Location:"; bi_th := "สถานที่ติดตั้ง:" |}.
Definition contactPerson : Bi := {| bi_en := "Contact Person:"; bi_th := "ผู้ติดต่อ:" |}.
Definition department : Bi := {| bi_en := "Department:"; bi_th := "แผนก:" |}.
Definition phone : Bi := {| bi_en := "Phone:"; bi_th := "โทรศัพท์:" |}.
Definition email : Bi := {| bi_en := "Email:"; bi_th := "อีเมล:" |}.
Definition pumpModel : Bi := {| bi_en := "Pump Model:"; bi_th := "รุ่นปั๊ม:" |}.
Definition serialNumber : Bi := {| bi_en := "Serial Number:"; bi_th := "หมายเลขเครื่อง:" |}.
Definition yearOfManufacture : Bi := {| bi_en := "Year of Manufacture:"; bi_th := "ปีท่ผลิต:" |}.
Definition operatingHours : Bi := {| bi_en := "Operating Hours:"; bi_th := "ชั่วโมงการทำงาน:" |}.
Definition lastServiceDate : Bi := {| bi_en := "Last Service Date:"; bi_th := "วันที่เข้าซ่อมครั้งล่าสุด:" |}.
Definition installationDate : Bi := {| bi_en := "Installation Date:"; bi_th := "วันที่ติดตั้ง:" |}.
Definition temperature : Bi := {| bi_en := "Temperature (°C):"; bi_th := "อุณหภูมิ (°C):" |}.
Definition flowRate : Bi := {| bi_en := "Flow Rate (m³/h):"; bi_th := "อัตราการไหล (m³/h):" |}.
Definition suctionPressure : Bi := {| bi_en := "Suction Pressure (bar):"; bi_th := "แรงดันด้านดูด (bar):" |}.
Definition dischargePressure : Bi := {| bi_en := "Discharge Pressure (bar):"; bi_th := "แรงดันด้านส่ง (bar):" |}.
Definition totalHead : Bi := {| bi_en := "Total Head (m):"; bi_th := "เฮดรมม (m):" |}.
Definition pumpedMedium : Bi := {| bi_en := "Pumped Medium:"; bi_th := "ของเหลวที่สูบ:" |}.
Definition serviceReason : Bi := {| bi_en := "Description of Issues/Reason for Service:"; bi_th := "รายละเอียดปัญหา/เหตุผลในการเข้าซ่ม:" |}.
End translations.

(** The label of the safety-training item. *)
Definition safetyTrainingLabel (language : Language) (training_hours : option string) : string :=
  ternary language
    ("Safety Training required? " ++ hoursPart training_hours "hours")
    ("ต้องรารการฝึกอบรมความปลอดภัยหรือไม่? " ++ hoursPart training_hours "ชั่วโมง").

(** [const preServiceChecklist] *)
Definition preServiceChecklist (formData : FormData) (checkboxes : Checkboxes)
    (language : Language) : list Content :=
  [createCheckboxItem (system_flush checkboxes)
     (ternary language "System flushed (if hazardous/hardening materials)" "ล้างระบบแล้ว (กรณีสารอันตราย/สารที่แข็งตัว)");
   createCheckboxItem (safety_training checkboxes)
     (safetyTrainingLabel language (training_hours formData));
   createCheckboxItem (harmless_form checkboxes)
     (ternary language "Declaration of Harmlessness form (in the operation manual)" "แบบฟอร์มการประกาศความไม่เป็นอันตราย (ในคู่มือการใช้าน)");
   createCheckboxItem (sds checkboxes)
     (ternary language "Safety Data Sheet (SDS) available" "มีเอกสารขมูลความปลอดภัย (SDS)");
   createCheckboxItem (alignment_report checkboxes)
     (ternary language "Alignment report available" "มีรายงานการปรับแนวเพลา");
   createCheckboxItem (operation_records checkboxes)
     (ternary language "Operation records available" "มีบันทึกการทำงาน")].

(** The stack of the "Pump Preparation" section. *)
Definition pumpPreparationItems (checkboxes : Checkboxes) (language : Language)
    : list Content :=
  [createCheckboxItem (power_isolated checkboxes)
     (ternary language "Pump isolated from power supply (customer responsibility)" "ปั๊มถูกตัดแยกจากแหล่งจ่ายไฟ (ความรับผิดชอบของลูกค้า)");
   createCheckboxItem (valves_locked checkboxes)
     (ternary language "Suction/discharge valves locked (customer responsibility)" "วาล์วดูด/จ่ายถูกล็อค (ความรับผิดชอบของลูกค้า)");
   createCheckboxItem (pump_drained checkboxes)
     (ternary language "Pump drained (customer responsibility)" "ระบายของเหลวออกจากปั๊ม (ความรับผิดชอบของลูกค้า)");
   createCheckboxItem (auxiliary_disconnected checkboxes)
     (ternary language "Auxiliary systems disconnected (e.g., external sensors)" "ระบบเสริมถูกตัดการเชื่อมต่อ (เช่น เซ็นเอรภายนอก)");
   createCheckboxItem (coupling_guard_removed checkboxes)
     (ternary language "Coupling guard removed" "ฝาครอบคัปปลิ��งถูกถอดออก");
   createCheckboxItem (coupling_disconnected checkboxes)
     (ternary language "Coupling disconnected" "คัปปลิ้งถูกถอดออก");
   createCheckboxItem (pump_cleaned checkboxes)
     (ternary language "Pump cleaned externally" "ทำความสะอาดภายนอกปั๊ม");
   createCheckboxItem (openings_protected checkboxes)
     (ternary language "All openings protected" "ช่องเปิดทั้งหมดได้รับการป้องกัน");
   createCheckboxItem (photos_taken checkboxes)
     (ternary language "Photographs taken (if possible)" "ถ่ายภาพ (ถ้าเป็นไปได้)")].

(** The company header block. *)
Definition header (language : Language) (logoBase64 qrBase64 : Payload)
    (today : string) : Content :=
  CColumns
    [(WStar,
      CStack
        [CImage logoBase64
           {| img_width := Some 120; img_height := Some 60; img_fit := None;
              img_alignment := None; img_margin := Some [0; 0; 0; 10] |};
         CText (pick language docHeader.company) (Some "headerCompany") None;
         CText (pick language docHeader.address1) (Some "headerAddress") None;
         CText (pick language docHeader.address2) (Some "headerAddress") (Some [0; 10; 0; 0]);
         CText (pick language docHeader.address3) (Some "headerAddress") (Some [0; 10; 0; 0]);
         CText (pick language docHeader.phone) (Some "headerAddress") (Some [0; 10; 0; 0])]
        false None);
     (WAuto,
      CStack
        [CStack
           [CText (pick language docHeader.docNo) (Some "headerDoc") None;
            CText (pick language docHeader.revision) (Some "headerDoc") (Some [0; 10; 0; 0]);
            CText (pick language (docHeader.date today)) (Some "headerDoc") (Some [0; 10; 0; 0])]
           false None;
         CImage qrBase64
           {| img_width := Some 50; img_height := Some 50; img_fit := None;
              img_alignment := Some "right"; img_margin := Some [0; 35; 0; 0] |}]
        false (Some [40; 0; 0; 0]))]
    (Some [0; 0; 0; 20]).

Definition docContent (formData : FormData) (checkboxes : Checkboxes)
    (language : Language) (logoBase64 qrBase64 : Payload) (today : string)
    : list Content :=
  [header language logoBase64 qrBase64 today;
   (* Customer Details section *)
   CStack
     [CText (pick language sectionTitles.customerDetails) (Some "sectionHeader") None;
      kvTable
        [kvRow (pick language translations.company) (company formData);
         kvRow (pick language translations.siteLocation) (site_location formData);
         kvRow (pick language translations.contactPerson) (contact_person formData);
         kvRow (pick language translations.department) (department formData);
         kvRow (pick language translations.phone) (phone formData);
         kvRow (pick language translations.email) (email formData)]]
     true None;
   (* Pump Information section *)
   CStack
     [CText (pick language sectionTitles.pumpInfo) (Some "sectionHeader") (Some [0; 20; 0; 10]);
      kvTable
        [kvRow (pick language translations.pumpModel) (pump_model formData);
         kvRow (pick language translations.serialNumber) (serial_number formData);
         kvRow (pick language translations.yearOfManufacture) (manufacture_year formData);
         kvRow (pick language translations.operatingHours) (operating_hours formData);
         kvRow (pick language translations.lastServiceDate) (last_service_date formData);
         kvRow (pick language translations.installationDate) (installation_date formData)]]
     true None;
   (* Operating Conditions section *)
   CStack
     [CText (pick language sectionTitles.operatingConditions) (Some "sectionHeader") (Some [0; 20; 0; 10]);
      kvTable
        [kvRow (pick language translations.temperature) (temperature formData);
         kvRow (pick language translations.flowRate) (flow_rate formData);
         kvRow (pick language translations.suctionPressure) (suction_pressure formData);
         kvRow (pick language translations.dischargePressure) (discharge_pressure formData);
         kvRow (pick language translations.totalHead) (total_head formData);
         kvRow (pick language translations.pumpedMedium) (pumped_medium formData)];
      CText (pick language translations.serviceReason) (Some "label") (Some [0; 10; 0; 5]);
      CText (or_dash (service_reason formData)) None (Some [0; 0; 0; 20])]
     true None;
   (* Pump Preparation section *)
   CStack
     [CText (pick language sectionTitles.pumpPreparation) (Some "sectionHeader") (Some [0; 20; 0; 10]);
      CStack (pumpPreparationItems checkboxes language) false (Some [0; 10; 0; 20])]
     true None;
   (* Customer Preparation Checklist section *)
   CStack
     [CText (pick language sectionTitles.preparationChecklist) (Some "sectionHeader") (Some [0; 20; 0; 10]);
      CStack (preServiceChecklist formData checkboxes language) false (Some [0; 10; 0; 20])]
     true None;
   (* Important Notes section *)
   CStack
     [CText (pick language sectionTitles.importantNotes) (Some "subHeader") (Some [0; 20; 0; 10]);
      CUl (map (pick language) importantNotes) (Some "list")]
     true None].

Definition docStyles : list (string * Style) :=
  [("title", {| font := None; fontSize := Some 20; bold := Some true; alignment := Some "center";
                color := Some "#111827"; fillColor := None; lineHeight := None;
                st_margin := Some [0; 0; 0; 20] |});
   ("headerCompany", {| font := None; fontSize := Some 14; bold := Some true; alignment := None;
                        color := Some "#111827"; fillColor := None; lineHeight := None;
                        st_margin := Some [0; 0; 0; 10] |});
   ("headerAddress", {| font := None; fontSize := Some 9; bold := None; alignment := None;
                        color := Some "#4B5563"; fillColor := None; lineHeight := Some 1.2;
                        st_margin := None |});
   ("headerDoc", {| font := None; fontSize := Some 9; bold := None; alignment := Some "right";
                    color := Some "#4B5563"; fillColor := None; lineHeight := Some 1.2;
                    st_margin := None |});
   ("sectionHeader", {| font := None; fontSize := Some 14; bold := Some true; alignment := None;
                        color := Some "#111827"; fillColor := Some "#F9FAFB"; lineHeight := None;
                        st_margin := Some [10; 20; 10; 10] |});
   ("subHeader", {| font := None; fontSize := Some 12; bold := Some true; alignment := None;
                    color := Some "#374151"; fillColor := None; lineHeight := None;
                    st_margin := Some [0; 15; 0; 8] |});
   ("label", {| font := None; fontSize := Some 11; bold := Some true; alignment := None;
                color := Some "#374151"; fillColor := None; lineHeight := None;
                st_margin := None |});
   ("list", {| font := None; fontSize := Some 11; bold := None; alignment := None;
               color := Some "#4B5563"; fillColor := None; lineHeight := Some 1.6;
               st_margin := Some [20; 0; 20; 0] |})].

(** [const docDefinition] *)
Definition docDefinition (formData : FormData) (checkboxes : Checkboxes)
    (language : Language) (logoBase64 qrBase64 : Payload) (today : string)
    : TDocumentDefinitions :=
  {| info := None;
     pageSize := "A4";
     pageMargins := [40; 40; 40; 60];
     defaultStyle := {| font := Some "Roboto"; fontSize := Some 11; bold := None;
                        alignment := None; color := Some "#1F2937"; fillColor := None;
                        lineHeight := Some 1.2; st_margin := None |};
     content := docContent formData checkboxes language logoBase64 qrBase64 today;
     styles := docStyles |}.

(** [pdfMake.fonts = { Roboto: {...} }] *)
Definition fonts : FontDictionary := [roboto].

(** [export async function generatePDF(formData, checkboxes, language)]; the
    [try { ... } catch (error) { ...; throw error }] around the body
    rethrows, so it does not change the outcome. *)
Definition generatePDF (env : Env) (formData : FormData) (checkboxes : Checkboxes)
    (language : Language) : Async (option Blob) :=
  if negb (window_defined env) then ret None else
  '(logoBase64, qrBase64) <- all2 (loadImage env "/Logo.png") (loadImage env "/QR.jpeg") ;;
  let doc := docDefinition formData checkboxes language logoBase64 qrBase64 (today env) in
  createPdf env fonts (applyTableLayouts doc).

End Full.

(* ================================================================== *)
(** ** [src/unnamed/part_003]: the 6-item single-flow generator *)

Module PreService.

(** [interface Checkboxes] *)
Record Checkboxes := {
  system_flush : bool;
  safety_training : bool;
  harmless_form : bool;
  sds : bool;
  alignment_report : bool;
  operation_records : bool
}.

(** [const sectionTitles] *)
Module sectionTitles.
Definition customerDetails : Bi := {| bi_en := "1. Customer Details"; bi_th := "1. รายละเอียดลูกค้า" |}.
Definition pumpInfo : Bi := {| bi_en := "2. Pump Information"; bi_th := "2. ข้อมูลปั๊ม" |}.
Definition operatingConditions : Bi := {| bi_en := "3. Operating Conditions"; bi_th := "3. สภาวะการทำงานจริง" |}.
Definition preparationChecklist : Bi := {| bi_en := "4. Customer Preparation Checklist"; bi_th := "4. รายการเตรียมความพร้อมของลูกค้า" |}.
Definition preServiceRequirements : Bi := {| bi_en := "Pre-Service Requirements"; bi_th := "ข้อกำหนดก่อนเข้าซ่อม" |}.
Definition importantNotes : Bi := {| bi_en := "Important Notes:"; bi_th := "หมายเหตุสำคัญ:" |}.
End sectionTitles.

(** [const importantNotes] *)
Definition importantNotes : list Bi :=
  [{| bi_en := "All work must be performed by qualified personnel only";
      bi_th := "งทั้งหมดต้องดำเนิการโดยบุคลากรที่มีคุณสมบัติเท่านั้น" |};
   {| bi_en := "Maintain proper documentation throughout the service process";
      bi_th := "รักษาเอกสารที่เหมาะสมตลอดกระบวนการให้บริการ" |};
   {| bi_en := "Use only OEM parts or approved equivalents";
      bi_th := "ใช้เฉพาะชิ้นส่วน OEM หรือชิ้นส่วนที่ได้รับการอนุมัติเท่านั้น" |};
   {| bi_en := "Follow all safety protocols, especially regarding magnetic coupling hazards";
      bi_th := "ปฏิบัติตามโปรโตคอลความปลอดภัยทั้งหมด โดยเฉพาะอย่างยิ่งเกี่ยวกับอันตรายจากการเชื่อมต่อแม่เหล็ก" |};
   {| bi_en := "Refer to manufacturer's manual for specific torque values and clearances";
      bi_th := "อ้างอิงคู่มือของผู้ผลิตสำหรับค่าแรงบิดและระยะห่างที่เฉพาะเจาะจ" |}].

(** [const translations] *)
Module translations.
Definition company : Bi := {| bi_en := "Company:"; bi_th := "บริษัท:" |}.
Definition siteLocation : Bi := {| bi_en := "Site Location:"; bi_th := "สถานที่ติดตั้ง:" |}.
Definition contactPerson : Bi := {| bi_en := "Contact Person:"; bi_th := "ผู้ติดต่อ:" |}.
Definition department : Bi := {| bi_en := "Department:"; bi_th := "แผนก:" |}.
Definition phone : Bi := {| bi_en := "Phone:"; bi_th := "โทรศัพท์:" |}.
Definition email : Bi := {| bi_en := "Email:"; bi_th := "อีเมล:" |}.
Definition pumpModel : Bi := {| bi_en := "Pump Model:"; bi_th := "รุ่นปั๊ม:" |}.
Definition serialNumber : Bi := {| bi_en := "Serial Number:"; bi_th := "หมายเลขเครื่อง:" |}.
Definition yearOfManufacture : Bi := {| bi_en := "Year of Manufacture:"; bi_th := "ปีที่ผลิต:" |}.
Definition operatingHours : Bi := {| bi_en := "Operating Hours:"; bi_th := "ชั่วโมงการทำงาน:" |}.
Definition lastServiceDate : Bi := {| bi_en := "Last Service Date:"; bi_th := "วันที่เข้าซ่อมครั้งล่าสุด:" |}.
Definition installationDate : Bi := {| bi_en := "Installation Date:"; bi_th := "วันที่ติดตั้ง:" |}.
Definition temperature : Bi := {| bi_en := "Temperature (°C):"; bi_th := "อุณหภูมิ (°C):" |}.
Definition flowRate : Bi := {| bi_en := "Flow Rate (m³/h):"; bi_th := "อัตราการไล (m³/h):" |}.
Definition suctionPressure : Bi := {| bi_en := "Suction Pressure (bar):"; bi_th := "แรงดันด้านดูด (bar):" |}.
Definition dischargePressure : Bi := {| bi_en := "Discharge Pressure (bar):"; bi_th := "แรงดันด้านส่ง (bar):" |}.
Definition totalHead : Bi := {| bi_en := "Total Head (m):"; bi_th := "เฮดรวม (m):" |}.
Definition pumpedMedium : Bi := {| bi_en := "Pumped Medium:"; bi_th := "ของเหลวที่สูบ:" |}.
Definition serviceReason : Bi := {| bi_en := "Description of Issues/Reason for Service:"; bi_th := "รายละเอียดปัญหา/เหตุผลในการเข้าซ่อม:" |}.
End translations.

(** The label of the safety-training item. *)
Definition safetyTrainingLabel (language : Language) (training_hours : option string) : string :=
  ternary language
    ("Safety Training required? " ++ hoursPart training_hours "hours")
    ("ต้องการการฝึกอบรมความปลอดภัยหรือไม่? " ++ hoursPart training_hours "ชั่วโมง").

(** [const preServiceChecklist] *)
Definition preServiceChecklist (formData : FormData) (checkboxes : Checkboxes)
    (language : Language) : list Content :=
  [createCheckboxItem (system_flush checkboxes)
     (ternary language "System flushed (if hazardous/hardening materials)" "ล้างระบบแล้ว (กรณีสารอันตราย/สารที่แข็งตัว)");
   createCheckboxItem (safety_training checkboxes)
     (safetyTrainingLabel language (training_hours formData));
   createCheckboxItem (harmless_form checkboxes)
     (ternary language "Declaration of Harmlessness form (in the operation manual)" "แบบฟอร์มการประกาศความไม่เป็นอันตราย (ในคู่มือการใช้งาน)");
   createCheckboxItem (sds checkboxes)
     (ternary language "Safety Data Sheet (SDS) available" "มีเอกสารข้อมูลความปลอดภัย (SDS)");
   createCheckboxItem (alignment_report checkboxes)
     (ternary language "Alignment report available" "มีรายงานการปรับแนวเพลา");
   createCheckboxItem (operation_records checkboxes)
     (ternary language "Operation records available" "มีบันทึกการทำงาน")].

(** The company header block. *)
Definition header (language : Language) (logoBase64 qrBase64 : Payload) : Content :=
  CColumns
    [(WNum 200,
      CImage logoBase64
        {| img_width := None; img_height := None; img_fit := Some (200, 100);
           img_alignment := None; img_margin := Some [0; 0; 20; 0] |});
     (WStar,
      CStack
        [CText (ternary language "Water Field Asia Co., Ltd." "บริษัท วอเตอร์ฟิลด์ เอเชีย จำกัด") (Some "headerCompany") None;
         CText (ternary language "623 Soi Onnut 70/1 Sub 2" "623 ซอยอ่อนนุช 70/1 แยก 2") (Some "headerAddress") None;
         CText (ternary language "Pravet Sub-District, Pravet District," "แขวงประเวศ เขตประเวศ") (Some "headerAddress") None;
         CText (ternary language "Bangkok 10250" "กรุงเทพมหานคร 10250") (Some "headerAddress") None;
         CText (ternary language "Tel.: +66 2320 1994" "โทร: +66 2320 1994") (Some "headerAddress") None]
        false (Some [0; 5; 0; 0]));
     (WAuto,
      CStack
        [CText (ternary language "Document No: FM-WFA-SER-057" "เลขที่เอกสาร: FM-WFA-SER-057") (Some "headerDoc") None;
         CText (ternary language "Revision: 00" "แก้ไขครั้งที่: 00") (Some "headerDoc") None;
         CText (ternary language "Date: 15.11.2024" "วันที่: 15.11.2024") (Some "headerDoc") None;
         CImage qrBase64
           {| img_width := Some 80; img_height := None; img_fit := None;
              img_alignment := Some "right"; img_margin := Some [0; 10; 0; 0] |}]
        false (Some [20; 5; 0; 0]))]
    (Some [0; 0; 0; 30]).

Definition docContent (formData : FormData) (checkboxes : Checkboxes)
    (language : Language) (logoBase64 qrBase64 : Payload) : list Content :=
  [header language logoBase64 qrBase64;
   (* Title with background *)
   CCanvas [CanvasFilledRect 0 0 515 40 4 "#F3F4F6"];
   CText (ternary language "Pump Service Checklist" "รายการตรวจ��อบการบริการปั๊ม") (Some "title") (Some [0; -30; 0; 30]);
   (* 1. Customer Details *)
   CText (pick language sectionTitles.customerDetails) (Some "sectionHeader") None;
   kvTable
     [kvRow (pick language translations.company) (company formData);
      kvRow (pick language translations.siteLocation) (site_location formData);
      kvRow (pick language translations.contactPerson) (contact_person formData);
      kvRow (pick language translations.department) (department formData);
      kvRow (pick language translations.phone) (phone formData);
      kvRow (pick language translations.email) (email formData)];
   (* 2. Pump Information *)
   CText (pick language sectionTitles.pumpInfo) (Some "sectionHeader") (Some [0; 20; 0; 10]);
   kvTable
     [kvRow (pick language translations.pumpModel) (pump_model formData);
      kvRow (pick language translations.serialNumber) (serial_number formData);
      kvRow (pick language translations.yearOfManufacture) (manufacture_year formData);
      kvRow (pick language translations.operatingHours) (operating_hours formData);
      kvRow (pick language translations.lastServiceDate) (last_service_date formData);
      kvRow (pick language translations.installationDate) (installation_date formData)];
   (* 3. Operating Conditions *)
   CText (pick language sectionTitles.operatingConditions) (Some "sectionHeader") (Some [0; 20; 0; 10]);
   kvTable
     [kvRow (pick language translations.temperature) (temperature formData);
      kvRow (pick language translations.flowRate) (flow_rate formData);
      kvRow (pick language translations.suctionPressure) (suction_pressure formData);
      kvRow (pick language translations.dischargePressure) (discharge_pressure formData);
      kvRow (pick language translations.totalHead) (total_head formData);
      kvRow (pick language translations.pumpedMedium) (pumped_medium formData)];
   CText (pick language translations.serviceReason) (Some "label") (Some [0; 10; 0; 5]);
   CText (or_dash (service_reason formData)) None (Some [0; 0; 0; 20]);
   (* 4. Customer Preparation Checklist *)
   CText (pick language sectionTitles.preparationChecklist) (Some "sectionHeader") (Some [0; 20; 0; 10]);
   CText (pick language sectionTitles.preServiceRequirements) (Some "subHeader") (Some [0; 10; 0; 10])]
  ++ preServiceChecklist formData checkboxes language
  ++ [CText (pick language sectionTitles.importantNotes) (Some "subHeader") (Some [0; 20; 0; 10]);
      CUl (map (pick language) importantNotes) (Some "list")].

Definition docStyles : list (string * Style) :=
  [("title", {| font := None; fontSize := Some 20; bold := Some true; alignment := Some "center";
                color := Some "#111827"; fillColor := None; lineHeight := None;
                st_margin := Some [0; 0; 0; 20] |});
   ("headerCompany", {| font := None; fontSize := Some 16; bold := Some true; alignment := None;
                        color := Some "#111827"; fillColor := None; lineHeight := None;
                        st_margin := Some [0; 0; 0; 8] |});
   ("headerAddress", {| font := None; fontSize := Some 11; bold := None; alignment := None;
                        color := Some "#4B5563"; fillColor := None; lineHeight := Some 1.6;
                        st_margin := None |});
   ("headerDoc", {| font := None; fontSize := Some 10; bold := None; alignment := Some "right";
                    color := Some "#4B5563"; fillColor := None; lineHeight := Some 1.6;
                    st_margin := None |});
   ("sectionHeader", {| font := None; fontSize := Some 14; bold := Some true; alignment := None;
                        color := Some "#111827"; fillColor := Some "#F9FAFB"; lineHeight := None;
                        st_margin := Some [10; 20; 10; 10] |});
   ("subHeader", {| font := None; fontSize := Some 12; bold := Some true; alignment := None;
                    color := Some "#374151"; fillColor := None; lineHeight := None;
                    st_margin := Some [0; 15; 0; 8] |});
   ("label", {| font := None; fontSize := Some 11; bold := Some true; alignment := None;
                color := Some "#374151"; fillColor := None; lineHeight := None;
                st_margin := None |});
   ("list", {| font := None; fontSize := Some 11; bold := None; alignment := None;
               color := Some "#4B5563"; fillColor := None; lineHeight := Some 1.6;
               st_margin := Some [20; 0; 20; 0] |})].

(** [const docDefinition] *)
Definition docDefinition (formData : FormData) (checkboxes : Checkboxes)
    (language : Language) (logoBase64 qrBase64 : Payload) : TDocumentDefinitions :=
  {| info := Some {| title := (ternary language "Pump Service Checklist" "รายการตรวจสอบการบริการปั๊ม");
                     author := "Water Field Asia Co., Ltd.";
                     subject := (ternary language "Pre-Service Requirements" "ข้อกำหนดก่อนเข้าซ่อม");
                     keywords := "pump, service, checklist" |};
     pageSize := "A4";
     pageMargins := [40; 40; 40; 60];
     defaultStyle := {| font := Some (ternary language "Roboto" "THSarabunNew");
                        fontSize := Some (ternary language 11 13);
                        bold := None; alignment := None; color := Some "#1F2937";
                        fillColor := None; lineHeight := Some 1.2; st_margin := None |};
     content := docContent formData checkboxes language logoBase64 qrBase64;
     styles := docStyles |}.

(** [pdfMake.fonts = { Roboto: {...}, THSarabunNew: {...} }] *)
Definition fonts : FontDictionary :=
  [roboto;
   ("THSarabunNew", ["THSarabunNew.ttf"; "THSarabunNew-Bold.ttf";
                     "THSarabunNew-Italic.ttf"; "THSarabunNew-BoldItalic.ttf"])].

(** [export async function generatePDF(formData, checkboxes, language)]:
    pdfmake and its fonts are imported dynamically before the images are
    loaded; setting [pdfMake.vfs] only logs a warning when the font module
    has no [vfs], so it does not change the outcome. *)
Definition generatePDF (env : Env) (formData : FormData) (checkboxes : Checkboxes)
    (language : Language) : Async (option Blob) :=
  if negb (window_defined env) then ret None else
  _ <- emit (EvImport "pdfmake/build/pdfmake") ;;
  _ <- (if import_ok env "pdfmake/build/pdfmake" then ret tt
        else settle (Rejected (ImportFailed "pdfmake/build/pdfmake"))) ;;
  _ <- emit (EvImport "pdfmake/build/vfs_fonts") ;;
  _ <- (if import_ok env "pdfmake/build/vfs_fonts" then ret tt
        else settle (Rejected (ImportFailed "pdfmake/build/vfs_fonts"))) ;;
  '(logoBase64, qrBase64) <- all2 (loadImage env "/Logo.png") (loadImage env "/QR.jpeg") ;;
  let doc := docDefinition formData checkboxes language logoBase64 qrBase64 in
  createPdf env fonts (applyTableLayouts doc).

End PreService.

(* ================================================================== *)
(** ** Queries on a content tree *)

(** Every text of a tree, in reading order: text blocks, table cells and
    bullet items. *)
Fixpoint texts (c : Content) : list string :=
  match c with
  | CText s _ _ => [s]
  | CImage _ _ | CCanvas _ => []
  | CStack items _ _ => flat_map texts items
  | CColumns cols _ => flat_map (fun wc => texts (snd wc)) cols
  | CTable _ _ body _ => flat_map (flat_map texts) body
  | CUl items _ => items
  end.

(** The tables of a tree, in reading order, as (body, layout). *)
Fixpoint tables (c : Content) : list (list (list Content) * Layout) :=
  match c with
  | CStack items _ _ => flat_map tables items
  | CColumns cols _ => flat_map (fun wc => tables (snd wc)) cols
  | CTable _ _ body layout => [(body, layout)]
  | _ => []
  end.

(** The checkbox glyphs of a tree: the canvas of every row whose first
    column is a canvas, as [createCheckboxItem] builds it. *)
Fixpoint glyphRows (c : Content) : list (list CanvasElement) :=
  match c with
  | CStack items _ _ => flat_map glyphRows items
  | CColumns ((_, CCanvas elems) :: _) _ => [elems]
  | CColumns cols _ => flat_map (fun wc => glyphRows (snd wc)) cols
  | _ => []
  end.

(** The bulleted lists of a tree. *)
Fixpoint bulletLists (c : Content) : list (list string) :=
  match c with
  | CStack items _ _ => flat_map bulletLists items
  | CColumns cols _ => flat_map (fun wc => bulletLists (snd wc)) cols
  | CUl items _ => [items]
  | _ => []
  end.

(** The text of a table cell. *)
Definition cellText (c : Content) : option string :=
  match c with CText s _ _ => Some s | _ => None end.

(** A text site of a document: a bilingual pair selected by the language,
    or a value taken from the form data. *)
Inductive Site := Builtin (p : Bi) | User (s : string).

Definition siteText (language : Language) (s : Site) : string :=
  match s with Builtin p => pick language p | User u => u end.

(** The two members of a bilingual site differ. *)
Definition bilingual (s : Site) : Prop :=
  match s with Builtin p => bi_en p <> bi_th p | User _ => True end.

(** The form fields of the three key/value tables, in row order. *)
Definition kvFields : list (FormData -> string) :=
  [company; site_location; contact_person; department; phone; email;
   pump_model; serial_number; manufacture_year; operating_hours;
   last_service_date; installation_date;
   temperature; flow_rate; suction_pressure; discharge_pressure;
   total_head; pumped_medium].

(** The text sites of the [Full] document, in reading order. *)
Definition textSitesFull (formData : FormData) (today : string) : list Site :=
  [Builtin Full.docHeader.company; Builtin Full.docHeader.address1;
   Builtin Full.docHeader.address2; Builtin Full.docHeader.address3;
   Builtin Full.docHeader.phone; Builtin Full.docHeader.docNo;
   Builtin Full.docHeader.revision; Builtin (Full.docHeader.date today);
   Builtin Full.sectionTitles.customerDetails;
   Builtin Full.translations.company; User (or_dash (company formData));
   Builtin Full.translations.siteLocation; User (or_dash (site_location formData));
   Builtin Full.translations.contactPerson; User (or_dash (contact_person formData));
   Builtin Full.translations.department; User (or_dash (department formData));
   Builtin Full.translations.phone; User (or_dash (phone formData));
   Builtin Full.translations.email; User (or_dash (email formData));
   Builtin Full.sectionTitles.pumpInfo;
   Builtin Full.translations.pumpModel; User (or_dash (pump_model formData));
   Builtin Full.translations.serialNumber; User (or_dash (serial_number formData));
   Builtin Full.translations.yearOfManufacture; User (or_dash (manufacture_year formData));
   Builtin Full.translations.operatingHours; User (or_dash (operating_hours formData));
   Builtin Full.translations.lastServiceDate; User (or_dash (last_service_date formData));
   Builtin Full.translations.installationDate; User (or_dash (installation_date formData));
   Builtin Full.sectionTitles.operatingConditions;
   Builtin Full.translations.temperature; User (or_dash (temperature formData));
   Builtin Full.translations.flowRate; User (or_dash (flow_rate formData));
   Builtin Full.translations.suctionPressure; User (or_dash (suction_pressure formData));
   Builtin Full.translations.dischargePressure; User (or_dash (discharge_pressure formData));
   Builtin Full.translations.totalHead; User (or_dash (total_head formData));
   Builtin Full.translations.pumpedMedium; User (or_dash (pumped_medium formData));
   Builtin Full.translations.serviceReason; User (or_dash (service_reason formData));
   Builtin Full.sectionTitles.pumpPreparation;
   Builtin {| bi_en := "Pump isolated from power supply (customer responsibility)";
             bi_th := "ปั๊มถูกตัดแยกจากแหล่งจ่ายไฟ (ความรับผิดชอบของลูกค้า)" |};
   Builtin {| bi_en := "Suction/discharge valves locked (customer responsibility)";
             bi_th := "วาล์วดูด/จ่ายถูกล็อค (ความรับผิดชอบของลูกค้า)" |};
   Builtin {| bi_en := "Pump drained (customer responsibility)";
             bi_th := "ระบายของเหลวออกจากปั๊ม (ความรับผิดชอบของลูกค้า)" |};
   Builtin {| bi_en := "Auxiliary systems disconnected (e.g., external sensors)";
             bi_th := "ระบบเสริมถูกตัดการเชื่อมต่อ (เช่น เซ็นเอรภายนอก)" |};
   Builtin {| bi_en := "Coupling guard removed";
             bi_th := "ฝาครอบคัปปลิ��งถูกถอดออก" |};
   Builtin {| bi_en := "Coupling disconnected";
             bi_th := "คัปปลิ้งถูกถอดออก" |};
   Builtin {| bi_en := "Pump cleaned externally";
             bi_th := "ทำความสะอาดภายนอกปั๊ม" |};
   Builtin {| bi_en := "All openings protected";
             bi_th := "ช่องเปิดทั้งหมดได้รับการป้องกัน" |};
   Builtin {| bi_en := "Photographs taken (if possible)";
             bi_th := "ถ่ายภาพ (ถ้าเป็นไปได้)" |};
   Builtin Full.sectionTitles.preparationChecklist;
   Builtin {| bi_en := "System flushed (if hazardous/hardening materials)";
             bi_th := "ล้างระบบแล้ว (กรณีสารอันตราย/สารที่แข็งตัว)" |};
   Builtin {| bi_en := "Safety Training required? " ++ hoursPart (training_hours formData) "hours";
             bi_th := "ต้องรารการฝึกอบรมความปลอดภัยหรือไม่? " ++ hoursPart (training_hours formData) "ชั่วโมง" |};
   Builtin {| bi_en := "Declaration of Harmlessness form (in the operation manual)";
             bi_th := "แบบฟอร์มการประกาศความไม่เป็นอันตราย (ในคู่มือการใช้าน)" |};
   Builtin {| bi_en := "Safety Data Sheet (SDS) available";
             bi_th := "มีเอกสารขมูลความปลอดภัย (SDS)" |};
   Builtin {| bi_en := "Alignment report available";
             bi_th := "มีรายงานการปรับแนวเพลา" |};
   Builtin {| bi_en := "Operation records available";
             bi_th := "มีบันทึกการทำงาน" |};
   Builtin Full.sectionTitles.importantNotes]
  ++ map Builtin Full.importantNotes.

(** The text sites of the [PreService] document, in reading order. *)
Definition textSitesPreService (formData : FormData) : list Site :=
  [Builtin {| bi_en := "Water Field Asia Co., Ltd.";
             bi_th := "บริษัท วอเตอร์ฟิลด์ เอเชีย จำกัด" |};
   Builtin {| bi_en := "623 Soi Onnut 70/1 Sub 2";
             bi_th := "623 ซอยอ่อนนุช 70/1 แยก 2" |};
   Builtin {| bi_en := "Pravet Sub-District, Pravet District,";
             bi_th := "แขวงประเวศ เขตประเวศ" |};
   Builtin {| bi_en := "Bangkok 10250";
             bi_th := "กรุงเทพมหานคร 10250" |};
   Builtin {| bi_en := "Tel.: +66 2320 1994";
             bi_th := "โทร: +66 2320 1994" |};
   Builtin {| bi_en := "Document No: FM-WFA-SER-057";
             bi_th := "เลขที่เอกสาร: FM-WFA-SER-057" |};
   Builtin {| bi_en := "Revision: 00";
             bi_th := "แก้ไขครั้งที่: 00" |};
   Builtin {| bi_en := "Date: 15.11.2024";
             bi_th := "วันที่: 15.11.2024" |};
   Builtin {| bi_en := "Pump Service Checklist";
             bi_th := "รายการตรวจ��อบการบริการปั๊ม" |};
   Builtin PreService.sectionTitles.customerDetails;
   Builtin PreService.translations.company; User (or_dash (company formData));
   Builtin PreService.translations.siteLocation; User (or_dash (site_location formData));
   Builtin PreService.translations.contactPerson; User (or_dash (contact_person formData));
   Builtin PreService.translations.department; User (or_dash (department formData));
   Builtin PreService.translations.phone; User (or_dash (phone formData));
   Builtin PreService.translations.email; User (or_dash (email formData));
   Builtin PreService.sectionTitles.pumpInfo;
   Builtin PreService.translations.pumpModel; User (or_dash (pump_model formData));
   Builtin PreService.translations.serialNumber; User (or_dash (serial_number formData));
   Builtin PreService.translations.yearOfManufacture; User (or_dash (manufacture_year formData));
   Builtin PreService.translations.operatingHours; User (or_dash (operating_hours formData));
   Builtin PreService.translations.lastServiceDate; User (or_dash (last_service_date formData));
   Builtin PreService.translations.installationDate; User (or_dash (installation_date formData));
   Builtin PreService.sectionTitles.operatingConditions;
   Builtin PreService.translations.temperature; User (or_dash (temperature formData));
   Builtin PreService.translations.flowRate; User (or_dash (flow_rate formData));
   Builtin PreService.translations.suctionPressure; User (or_dash (suction_pressure formData));
   Builtin PreService.translations.dischargePressure; User (or_dash (discharge_pressure formData));
   Builtin PreService.translations.totalHead; User (or_dash (total_head formData));
   Builtin PreService.translations.pumpedMedium; User (or_dash (pumped_medium formData));
   Builtin PreService.translations.serviceReason; User (or_dash (service_reason formData));
   Builtin PreService.sectionTitles.preparationChecklist;
   Builtin PreService.sectionTitles.preServiceRequirements;
   Builtin {| bi_en := "System flushed (if hazardous/hardening materials)";
             bi_th := "ล้างระบบแล้ว (กรณีสารอันตราย/สารที่แข็งตัว)" |};
   Builtin {| bi_en := "Safety Training required? " ++ hoursPart (training_hours formData) "hours";
             bi_th := "ต้องการการฝึกอบรมความปลอดภัยหรือไม่? " ++ hoursPart (training_hours formData) "ชั่วโมง" |};
   Builtin {| bi_en := "Declaration of Harmlessness form (in the operation manual)";
             bi_th := "แบบฟอร์มการประกาศความไม่เป็นอันตราย (ในคู่มือการใช้งาน)" |};
   Builtin {| bi_en := "Safety Data Sheet (SDS) available";
             bi_th := "มีเอกสารข้อมูลความปลอดภัย (SDS)" |};
   Builtin {| bi_en := "Alignment report available";
             bi_th := "มีรายงานการปรับแนวเพลา" |};
   Builtin {| bi_en := "Operation records available";
             bi_th := "มีบันทึกการทำงาน" |};
   Builtin PreService.sectionTitles.importantNotes]
  ++ map Builtin PreService.importantNotes.

(** The unit word of the safety-training label. *)
Definition unitWord (language : Language) : string := ternary language "hours" "ชั่วโมง".

(** Whether a string contains an opening parenthesis. *)
Definition has_paren (s : string) : bool :=
  existsb (fun c => Ascii.eqb c "("%char) (list_ascii_of_string s).

(** The value cell of a key/value row. *)
Definition valueOf (row : list Content) : option string :=
  match row with [_; v] => cellText v | _ => None end.

(** The value cells of all tables of a content list, in reading order. *)
Definition valueCells (cs : list Content) : list (option string) :=
  map valueOf (concat (map fst (flat_map tables cs))).

Section ExactArithmetic.
Local Open Scope Q_scope.

(** [x < y] on [Q] as a boolean. *)
Definition Qltb (x y : Q) : bool := negb (Qle_bool y x).

(** The dimension computation of [loadImage] in exact rational
    arithmetic, for comparison with the binary64 [resize]. *)
Definition resizeQ (imgWidth imgHeight : Q) : Q * Q :=
  let aspectRatio := imgWidth / imgHeight in
  let '(width, height) :=
    if Qltb 800 imgWidth
    then let width := 800 in (width, width / aspectRatio)
    else (imgWidth, imgHeight) in
  if Qltb 800 height
  then let height := 800 in (height * aspectRatio, height)
  else (width, height).

End ExactArithmetic.

(* ------------------------------------------------------------------ *)
(** ** Sample inputs *)

Definition emptyForm : FormData := {|
  company := ""; site_location := ""; contact_person := ""; department := "";
  phone := ""; email := ""; pump_model := ""; serial_number := "";
  manufacture_year := ""; operating_hours := ""; last_service_date := "";
  installation_date := ""; temperature := ""; flow_rate := "";
  suction_pressure := ""; discharge_pressure := ""; total_head := "";
  pumped_medium := ""; service_reason := ""; training_hours := None |}.

Definition acmeForm : FormData := {|
  company := "Acme Co"; site_location := ""; contact_person := ""; department := "";
  phone := ""; email := ""; pump_model := ""; serial_number := "";
  manufacture_year := ""; operating_hours := ""; last_service_date := "";
  installation_date := ""; temperature := ""; flow_rate := "";
  suction_pressure := ""; discharge_pressure := ""; total_head := "";
  pumped_medium := ""; service_reason := ""; training_hours := None |}.

Definition noChecksFull : Full.Checkboxes := {|
  Full.system_flush := false; Full.safety_training := false;
  Full.harmless_form := false; Full.sds := false; Full.alignment_report := false;
  Full.operation_records := false; Full.power_isolated := false;
  Full.valves_locked := false; Full.pump_drained := false;
  Full.auxiliary_disconnected := false; Full.coupling_guard_removed := false;
  Full.coupling_disconnected := false; Full.pump_cleaned := false;
  Full.openings_protected := false; Full.photos_taken := false |}.

Definition noChecksPreService : PreService.Checkboxes := {|
  PreService.system_flush := false; PreService.safety_training := false;
  PreService.harmless_form := false; PreService.sds := false;
  PreService.alignment_report := false; PreService.operation_records := false |}.

(** A 4-byte PNG signature prefix, and a 512001-byte file. *)
Definition smallBlob : Blob :=
  {| blob_type := "image/png"; blob_bytes := [Byte.x89; Byte.x50; Byte.x4e; Byte.x47] |}.
Definition bigBlob : Blob :=
  {| blob_type := "image/png"; blob_bytes := repeat Byte.x00 (Z.to_nat 512001) |}.
Definition pdfBlob : Blob := {| blob_type := "application/pdf"; blob_bytes := [Byte.x25] |}.

(** A browser in which every fetch returns [blob], decoding gives
    [decoded], and pdfmake renders [pdfBlob]. *)
Definition sampleEnv (window : bool) (blob : Blob) (decoded : option (float * float))
    (ctx : bool) : Env := {|
  window_defined := window;
  import_ok := fun _ => true;
  fetch := fun _ => Some blob;
  decode := fun _ => decoded;
  context2d := ctx;
  getBlob := fun _ _ => Some pdfBlob;
  today := "15.10.2026" |}.

(* ================================================================== *)
(** ** [src/unnamed/part_002]: the [PumpServiceChecklist] form component

    The page component that calls [generatePDF] of [src/utils/generatePDF.ts]
    and shows the result in [PDFPreviewModal]
    ([src/components/PDFPreviewModal.tsx]). Its state is modelled together
    with the part of the browser it acts on: the generations started by
    [handleSubmit] that have not settled yet, the live object URLs, and the
    alerts and downloads it causes. *)

Module Form.

(** A plain JavaScript object, as its own properties in insertion order. *)
Definition Obj (V : Type) := list (string * V).

(** [o[k]]; [None] is [undefined]. *)
Fixpoint get {V} (o : Obj V) (k : string) : option V :=
  match o with
  | [] => None
  | (k', v) :: o' => if String.eqb k' k then Some v else get o' k
  end.

(** [{ ...o, [k]: v }]: an existing property keeps its place and takes the
    new value; a new property is added last. *)
Fixpoint setKey {V} (o : Obj V) (k : string) (v : V) : Obj V :=
  match o with
  | [] => [(k, v)]
  | (k', v') :: o' =>
      if String.eqb k' k then (k', v) :: o' else (k', v') :: setKey o' k v
  end.

(** [type CheckboxId] *)
Inductive CheckboxId :=
| system_flush | safety_training | harmless_form | sds | alignment_report
| operation_records | power_isolation | valves_locked | pump_drained
| aux_systems | coupling_guard | coupling | pump_cleaned
| openings_protected | photos_taken.

(** The property name of a [CheckboxId]. *)
Definition idName (id : CheckboxId) : string :=
  match id with
  | system_flush => "system_flush"
  | safety_training => "safety_training"
  | harmless_form => "harmless_form"
  | sds => "sds"
  | alignment_report => "alignment_report"
  | operation_records => "operation_records"
  | power_isolation => "power_isolation"
  | valves_locked => "valves_locked"
  | pump_drained => "pump_drained"
  | aux_systems => "aux_systems"
  | coupling_guard => "coupling_guard"
  | coupling => "coupling"
  | pump_cleaned => "pump_cleaned"
  | openings_protected => "openings_protected"
  | photos_taken => "photos_taken"
  end.

Definition checkboxIds : list CheckboxId :=
  [system_flush; safety_training; harmless_form; sds; alignment_report;
   operation_records; power_isolation; valves_locked; pump_drained;
   aux_systems; coupling_guard; coupling; pump_cleaned;
   openings_protected; photos_taken].

(** The keys of the component's [FormData], in the order of its initial
    state; they are also the [name]s of its inputs. *)
Definition formKeys : list string :=
  ["company"; "site_location"; "contact_person"; "department"; "phone";
   "email"; "pump_model"; "serial_number"; "manufacture_year";
   "operating_hours"; "last_service_date"; "installation_date";
   "temperature"; "flow_rate"; "suction_pressure"; "discharge_pressure";
   "total_head"; "pumped_medium"; "service_reason"; "training_hours"].

(** [useState<FormData>({ company: '', ... })] *)
Definition initialFormData : Obj string := map (fun k => (k, "")) formKeys.

(** [useState({ system_flush: false, ... })] *)
Definition initialCheckboxes : Obj bool :=
  map (fun id => (idName id, false)) checkboxIds.

(** What [generatePDF(formData, checkboxes, language)] reads from the
    component's objects. Types are erased at run time, so each property is
    read by the name [generatePDF.ts] gives it. A form value is only used as
    [formData.x || '-'], where a missing property ([undefined]) and [''] give
    the same ['-']; [training_hours] is read as the optional value it is. *)
Definition str (o : Obj string) (k : string) : string :=
  match get o k with Some s => s | None => "" end.

(** [checked ? [...] : []]: a missing property is [undefined], which is
    falsy. *)
Definition flag (o : Obj bool) (k : string) : bool :=
  match get o k with Some b => b | None => false end.

Definition asFormData (o : Obj string) : FormData := {|
  company := str o "company";
  site_location := str o "site_location";
  contact_person := str o "contact_person";
  department := str o "department";
  phone := str o "phone";
  email := str o "email";
  pump_model := str o "pump_model";
  serial_number := str o "serial_number";
  manufacture_year := str o "manufacture_year";
  operating_hours := str o "operating_hours";
  last_service_date := str o "last_service_date";
  installation_date := str o "installation_date";
  temperature := str o "temperature";
  flow_rate := str o "flow_rate";
  suction_pressure := str o "suction_pressure";
  discharge_pressure := str o "discharge_pressure";
  total_head := str o "total_head";
  pumped_medium := str o "pumped_medium";
  service_reason := str o "service_reason";
  training_hours := get o "training_hours" |}.

Definition asCheckboxes (o : Obj bool) : Full.Checkboxes := {|
  Full.system_flush := flag o "system_flush";
  Full.safety_training := flag o "safety_training";
  Full.harmless_form := flag o "harmless_form";
  Full.sds := flag o "sds";
  Full.alignment_report := flag o "alignment_report";
  Full.operation_records := flag o "operation_records";
  Full.power_isolated := flag o "power_isolated";
  Full.valves_locked := flag o "valves_locked";
  Full.pump_drained := flag o "pump_drained";
  Full.auxiliary_disconnected := flag o "auxiliary_disconnected";
  Full.coupling_guard_removed := flag o "coupling_guard_removed";
  Full.coupling_disconnected := flag o "coupling_disconnected";
  Full.pump_cleaned := flag o "pump_cleaned";
  Full.openings_protected := flag o "openings_protected";
  Full.photos_taken := flag o "photos_taken" |}.

(** The string [URL.createObjectURL(blob)] returns: a fresh [blob:] URL,
    told apart by the browser's counter. *)
Inductive ObjectURL := BlobURL (n : nat).

Definition url_eqb (u v : ObjectURL) : bool :=
  let '(BlobURL a) := u in let '(BlobURL b) := v in Nat.eqb a b.

(** The blob a live object URL stands for. *)
Fixpoint resolveURL (u : ObjectURL) (live : list (ObjectURL * Blob)) : option Blob :=
  match live with
  | [] => None
  | (v, b) :: live' => if url_eqb v u then Some b else resolveURL u live'
  end.

(** [URL.revokeObjectURL(u)] *)
Definition revokeObjectURL (u : ObjectURL) (live : list (ObjectURL * Blob))
    : list (ObjectURL * Blob) :=
  filter (fun e => negb (url_eqb (fst e) u)) live.

(** What the user sees happen outside the component's own rendering:
    an [alert(...)], and a download by [link.click()] on a link whose
    [href] is an object URL (the blob it stands for, [None] when the URL
    is not live) and whose [download] attribute is [filename]. The
    [console.error] calls are not modelled. *)
Inductive UIEffect :=
| Alert (message : string)
| Download (filename : string) (blob : option Blob).

(** A call [generatePDF(formData, checkboxes, language)] that
    [handleSubmit] awaits, with the values its closure captured. *)
Record Request := {
  req_formData : Obj string;
  req_checkboxes : Obj bool;
  req_language : Language
}.

Record State := {
  language : Language;
  formData : Obj string;
  checkboxes : Obj bool;
  isPreviewOpen : bool;
  pdfPreviewUrl : option ObjectURL;
  pending : list Request;
  objectURLs : list (ObjectURL * Blob);
  nextURL : nat;
  effects : list UIEffect
}.

Definition initial : State := {|
  language := en;
  formData := initialFormData;
  checkboxes := initialCheckboxes;
  isPreviewOpen := false;
  pdfPreviewUrl := None;
  pending := [];
  objectURLs := [];
  nextURL := 0;
  effects := [] |}.

(** [handleInputChange]: [setFormData(prev => ({ ...prev, [name]: value }))] *)
Definition handleInputChange (name value : string) (prev : Obj string) : Obj string :=
  setKey prev name value.

(** [handleCheckboxChange]: [setCheckboxes(prev => ({ ...prev, [id]: !prev[id] }))] *)
Definition handleCheckboxChange (id : CheckboxId) (prev : Obj bool) : Obj bool :=
  setKey prev (idName id) (negb (flag prev (idName id))).

(** How the awaited call settles, if it does. *)
Definition generate (env : Env) (r : Request) : Outcome (option Blob) :=
  fst (Full.generatePDF env (asFormData (req_formData r))
         (asCheckboxes (req_checkboxes r)) (req_language r) []).

(** The message of the [alert] in the [catch] of [handleSubmit]. *)
Definition errorMessage (language : Language) : string :=
  ternary language "Error generating PDF. Please try again."
    "เกิดข้อผิดพลาดในการสร้าง PDF กรุณาลองอีกครั้ง".

Definition removeAt {A} (i : nat) (xs : list A) : list A :=
  app (firstn i xs) (skipn (S i) xs).

(** [handleSubmit] up to its [await]: [generatePDF] is called with the
    current state. *)
Definition submit (s : State) : State := {|
  language := language s; formData := formData s; checkboxes := checkboxes s;
  isPreviewOpen := isPreviewOpen s; pdfPreviewUrl := pdfPreviewUrl s;
  pending := app (pending s)
               [{| req_formData := formData s; req_checkboxes := checkboxes s;
                   req_language := language s |}];
  objectURLs := objectURLs s; nextURL := nextURL s; effects := effects s |}.

(** The rest of [handleSubmit], once the [i]-th pending call settles:
    a blob gets an object URL that becomes the preview and opens the modal;
    [null] does nothing; a rejection shows an alert in the language the
    call was made in. A call that never settles never resumes. *)
Definition resume (env : Env) (s : State) (i : nat) : State :=
  match nth_error (pending s) i with
  | None => s
  | Some r =>
      match generate env r with
      | Pending => s
      | Resolved (Some pdfBlob) =>
          let pdfUrl := BlobURL (nextURL s) in
          {| language := language s; formData := formData s;
             checkboxes := checkboxes s;
             isPreviewOpen := true; pdfPreviewUrl := Some pdfUrl;
             pending := removeAt i (pending s);
             objectURLs := app (objectURLs s) [(pdfUrl, pdfBlob)];
             nextURL := S (nextURL s); effects := effects s |}
      | Resolved None =>
          {| language := language s; formData := formData s;
             checkboxes := checkboxes s;
             isPreviewOpen := isPreviewOpen s; pdfPreviewUrl := pdfPreviewUrl s;
             pending := removeAt i (pending s);
             objectURLs := objectURLs s; nextURL := nextURL s;
             effects := effects s |}
      | Rejected _ =>
          {| language := language s; formData := formData s;
             checkboxes := checkboxes s;
             isPreviewOpen := isPreviewOpen s; pdfPreviewUrl := pdfPreviewUrl s;
             pending := removeAt i (pending s);
             objectURLs := objectURLs s; nextURL := nextURL s;
             effects := app (effects s) [Alert (errorMessage (req_language r))] |}
      end
  end.

(** [handleDownload] *)
Definition handleDownload (s : State) : State :=
  match pdfPreviewUrl s with
  | Some u =>
      {| language := language s; formData := formData s; checkboxes := checkboxes s;
         isPreviewOpen := isPreviewOpen s; pdfPreviewUrl := pdfPreviewUrl s;
         pending := pending s; objectURLs := objectURLs s; nextURL := nextURL s;
         effects := app (effects s)
                      [Download "pump-service-checklist.pdf" (resolveURL u (objectURLs s))] |}
  | None => s
  end.

(** [handleClosePreview] *)
Definition handleClosePreview (s : State) : State :=
  match pdfPreviewUrl s with
  | Some u =>
      {| language := language s; formData := formData s; checkboxes := checkboxes s;
         isPreviewOpen := false; pdfPreviewUrl := None;
         pending := pending s; objectURLs := revokeObjectURL u (objectURLs s);
         nextURL := nextURL s; effects := effects s |}
  | None =>
      {| language := language s; formData := formData s; checkboxes := checkboxes s;
         isPreviewOpen := false; pdfPreviewUrl := None;
         pending := pending s; objectURLs := objectURLs s;
         nextURL := nextURL s; effects := effects s |}
  end.

(** [changeLanguage] *)
Definition changeLanguage (lang : Language) (s : State) : State :=
  {| language := lang; formData := formData s; checkboxes := checkboxes s;
     isPreviewOpen := isPreviewOpen s; pdfPreviewUrl := pdfPreviewUrl s;
     pending := pending s; objectURLs := objectURLs s; nextURL := nextURL s;
     effects := effects s |}.

(** The events the component handles. Each handler runs to completion;
    the [await] of [handleSubmit] splits it into [Submit] and [Settle]. *)
Inductive Action :=
| InputChange (name value : string)   (** [onChange] of an input or the textarea *)
| CheckboxChange (id : CheckboxId)    (** [onCheckedChange] *)
| ChangeLanguage (lang : Language)    (** the English / Thai buttons *)
| Submit                              (** [onSubmit] of the form *)
| Settle (i : nat)                    (** the [i]-th pending call settles *)
| DownloadClick                       (** [onDownload] of the modal *)
| ClosePreview.                       (** [onClose] / [onOpenChange] of the modal *)

Definition step (env : Env) (s : State) (a : Action) : State :=
  match a with
  | InputChange name value =>
      {| language := language s; formData := handleInputChange name value (formData s);
         checkboxes := checkboxes s;
         isPreviewOpen := isPreviewOpen s; pdfPreviewUrl := pdfPreviewUrl s;
         pending := pending s; objectURLs := objectURLs s; nextURL := nextURL s;
         effects := effects s |}
  | CheckboxChange id =>
      {| language := language s; formData := formData s;
         checkboxes := handleCheckboxChange id (checkboxes s);
         isPreviewOpen := isPreviewOpen s; pdfPreviewUrl := pdfPreviewUrl s;
         pending := pending s; objectURLs := objectURLs s; nextURL := nextURL s;
         effects := effects s |}
  | ChangeLanguage lang => changeLanguage lang s
  | Submit => submit s
  | Settle i => resume env s i
  | DownloadClick => handleDownload s
  | ClosePreview => handleClosePreview s
  end.

Definition run (env : Env) (s : State) (acts : list Action) : State :=
  fold_left (step env) acts s.

(** What [PDFPreviewModal] shows in its body. *)
Inductive ModalBody :=
| Iframe (src : ObjectURL)     (** [<iframe src={previewUrl}>] *)
| Loading (label : string).    (** the spinner and its label *)

Record ModalView := {
  open : bool;
  dialogTitle : string;
  dialogDescription : string;
  body : ModalBody;
  closeLabel : string;
  downloadLabel : string
}.

(** [PDFPreviewModal({ isOpen, language, previewUrl })]; the two copies
    ([src/components/PDFPreviewModal.tsx], [src/unnamed/part_001]) differ
    only in their class names. An object URL is a non-empty string, hence
    truthy. *)
Definition PDFPreviewModal (isOpen : bool) (language : Language)
    (previewUrl : option ObjectURL) : ModalView := {|
  open := isOpen;
  dialogTitle := ternary language "Preview Document" "ดูตัวอย่างเอกสาร";
  dialogDescription :=
    ternary language "Preview your pump service checklist before downloading."
      "ดูตัวอย่างรายการตรวจสอบการซ่อมบำรุงปั๊มก่อนดาวน์โหลด";
  body := match previewUrl with
          | Some u => Iframe u
          | None => Loading (ternary language "Loading preview..." "กำลังโหลดตัวอย่าง...")
          end;
  closeLabel := ternary language "Close" "ปิด";
  downloadLabel := ternary language "Download PDF" "ดาวน์โหลด PDF" |}.

(** The modal as [PumpServiceChecklist] renders it. *)
Definition modal (s : State) : ModalView :=
  PDFPreviewModal (isPreviewOpen s) (language s) (pdfPreviewUrl s).

End Form.

(** A browser in which every fetch fails, and one in which pdfmake throws. *)
Definition offlineEnv : Env := {|
  window_defined := true;
  import_ok := fun _ => true;
  fetch := fun _ => None;
  decode := fun _ => None;
  context2d := true;
  getBlob := fun _ _ => None;
  today := "15.10.2026" |}.

Definition brokenRendererEnv : Env := {|
  window_defined := true;
  import_ok := fun _ => true;
  fetch := fun _ => Some smallBlob;
  decode := fun _ => None;
  context2d := true;
  getBlob := fun _ _ => None;
  today := "15.10.2026" |}.

(** A browser in which the [pdfmake] module fails to load. *)
Definition noPdfmakeEnv : Env := {|
  window_defined := true;
  import_ok := fun m => negb (String.eqb m "pdfmake/build/pdfmake");
  fetch := fun _ => Some smallBlob;
  decode := fun _ => None;
  context2d := true;
  getBlob := fun _ _ => Some pdfBlob;
  today := "15.10.2026" |}.

(* ================================================================== *)
(** * Properties *)

(** ** Bilingual text selection *)

Lemma texts_sites_differ (S : list Site) (xs ys : list string) :
  Forall bilingual S ->
  xs = map (siteText en) S -> ys = map (siteText th) S ->
  forall i p, nth_error S i = Some (Builtin p) -> nth_error xs i <> nth_error ys i.
Proof.
  intros HS -> -> i p Hi.
  rewrite !nth_error_map, Hi. cbn. intro E. injection E.
  rewrite Forall_forall in HS. exact (HS _ (nth_error_In _ _ Hi)).
Qed.

Lemma Full_texts_sites formData checkboxes language logo qr today :
  flat_map texts (content (Full.docDefinition formData checkboxes language logo qr today))
  = map (siteText language) (textSitesFull formData today).
Proof. destruct language; reflexivity. Qed.

Lemma PreService_texts_sites formData checkboxes language logo qr :
  flat_map texts (content (PreService.docDefinition formData checkboxes language logo qr))
  = map (siteText language) (textSitesPreService formData).
Proof. destruct language; reflexivity. Qed.

(** C1. In both generators, for every form snapshot, checklist, language
    and images, the texts of the document content are exactly its text
    sites read in the active language: each bilingual site (header and
    address lines, section headers, table labels, checklist labels, notes)
    contributes the member of its pair keyed by the language, each form
    value contributes the value (or its placeholder) unchanged; the two
    members of every bilingual pair differ, so switching the language
    changes the text at every bilingual site. *)
Theorem docDefinition_texts_select_language :
  (forall formData checkboxes language logo qr today,
     flat_map texts (content (Full.docDefinition formData checkboxes language logo qr today))
     = map (siteText language) (textSitesFull formData today)
   /\ Forall bilingual (textSitesFull formData today)
   /\ forall i p, nth_error (textSitesFull formData today) i = Some (Builtin p) ->
        nth_error (flat_map texts (content (Full.docDefinition formData checkboxes en logo qr today))) i
        <> nth_error (flat_map texts (content (Full.docDefinition formData checkboxes th logo qr today))) i)
  /\
  (forall formData checkboxes language logo qr,
     flat_map texts (content (PreService.docDefinition formData checkboxes language logo qr))
     = map (siteText language) (textSitesPreService formData)
   /\ Forall bilingual (textSitesPreService formData)
   /\ forall i p, nth_error (textSitesPreService formData) i = Some (Builtin p) ->
        nth_error (flat_map texts (content (PreService.docDefinition formData checkboxes en logo qr))) i
        <> nth_error (flat_map texts (content (PreService.docDefinition formData checkboxes th logo qr))) i).
Proof.
  pose proof Full_texts_sites as HF. pose proof PreService_texts_sites as HP.
  assert (BF : forall formData today, Forall bilingual (textSitesFull formData today)).
  { intros. cbn. repeat constructor; cbn; intro E; discriminate E. }
  assert (BP : forall formData, Forall bilingual (textSitesPreService formData)).
  { intros. cbn. repeat constructor; cbn; intro E; discriminate E. }
  split; intros; (split; [|split]); auto.
  - intros i p Hi. exact (texts_sites_differ _ _ _ (BF _ _) (HF _ _ _ _ _ _) (HF _ _ _ _ _ _) i p Hi).
  - intros i p Hi. exact (texts_sites_differ _ _ _ (BP _) (HP _ _ _ _ _) (HP _ _ _ _ _) i p Hi).
Qed.

(** ** Entry point without a window *)

(** C10. When [window] is undefined, both generators resolve to [null]
    at once: the trace of effects is unchanged (no import, no fetch, no
    call of pdfmake). *)
Theorem generatePDF_without_window_is_null (env : Env) (formData : FormData)
    (language : Language) (t : list Event) :
  window_defined env = false ->
  (forall checkboxes, Full.generatePDF env formData checkboxes language t = (Resolved None, t))
  /\ (forall checkboxes, PreService.generatePDF env formData checkboxes language t = (Resolved None, t)).
Proof.
  intros H. unfold Full.generatePDF, PreService.generatePDF. rewrite H.
  split; reflexivity.
Qed.

Lemma generatePDF_without_window_is_null_witness :
  window_defined (sampleEnv false smallBlob None true) = false
  /\ Full.generatePDF (sampleEnv false smallBlob None true) emptyForm noChecksFull en []
     = (Resolved None, []).
Proof.
  split; [reflexivity|].
  exact (proj1 (generatePDF_without_window_is_null
                  (sampleEnv false smallBlob None true) emptyForm en [] eq_refl)
               noChecksFull).
Defined.

(** ** Fonts *)

(** C6 (at the failing input). [Full] selects Roboto as the one global
    font for both languages, also for a Thai document, and registers no
    other family; [PreService] selects Roboto for ['en'] and THSarabunNew
    for ['th']. No style of either style table names a font. *)
Theorem Full_thai_document_uses_roboto :
  (forall formData checkboxes language logo qr today,
     font (defaultStyle (Full.docDefinition formData checkboxes language logo qr today))
     = Some "Roboto")
  /\ map fst Full.fonts = ["Roboto"]
  /\ (forall formData checkboxes logo qr,
        font (defaultStyle (PreService.docDefinition formData checkboxes en logo qr)) = Some "Roboto"
        /\ font (defaultStyle (PreService.docDefinition formData checkboxes th logo qr))
           = Some "THSarabunNew")
  /\ Forall (fun s => font (snd s) = None) Full.docStyles
  /\ Forall (fun s => font (snd s) = None) PreService.docStyles.
Proof.
  repeat split; repeat constructor.
Qed.

(** ** Table layouts *)

(** C8 (at the failing input). The post-pass of [Full] visits only the
    top-level content items; its three tables are nested in section
    stacks, so after the pass they all still carry the name of pdfmake's
    built-in layout ['lightHorizontalLines'] and none carries the object
    [tableLayout.lightHorizontalLines]. In [PreService] the three tables
    are top-level and all receive the object. *)
Theorem Full_tables_miss_layout_postpass :
  (forall formData checkboxes language logo qr today,
     map snd (flat_map tables
       (content (applyTableLayouts (Full.docDefinition formData checkboxes language logo qr today))))
     = repeat (LNamed "lightHorizontalLines") 3)
  /\ (forall formData checkboxes language logo qr,
     map snd (flat_map tables
       (content (applyTableLayouts (PreService.docDefinition formData checkboxes language logo qr))))
     = repeat (LObject lightHorizontalLines) 3).
Proof.
  split; intros; reflexivity.
Qed.

(** ** Notes *)

(** C9 (counterexample). The notes list of the pre-service-only
    generator has 5 items, not 6. *)
Lemma PreService_notes_not_six :
  map (@length string)
    (flat_map bulletLists (content (PreService.docDefinition emptyForm noChecksPreService en PEmpty PEmpty)))
  <> [6%nat].
Proof. vm_compute. discriminate. Qed.

(** C9 (amended). Each generator has one bulleted list, its notes read
    in the active language, independent of the form data and the
    checklist: 7 notes in [Full], 5 in [PreService]. *)
Theorem notes_fixed_by_language :
  (forall formData checkboxes language logo qr today,
     flat_map bulletLists (content (Full.docDefinition formData checkboxes language logo qr today))
     = [map (pick language) Full.importantNotes])
  /\ length Full.importantNotes = 7%nat
  /\ (forall formData checkboxes language logo qr,
     flat_map bulletLists (content (PreService.docDefinition formData checkboxes language logo qr))
     = [map (pick language) PreService.importantNotes])
  /\ length PreService.importantNotes = 5%nat.
Proof.
  repeat split; intros; reflexivity.
Qed.

(** ** The safety-training label *)

(** C7. In both generators the safety-training label is its text for an
    absent hours value, which has no parenthesis, followed by
    ["(" ++ h ++ " " ++ unit ++ ")"] exactly when [training_hours] is a
    nonempty [h]; an empty or absent value gives the bare text; and the
    second item of the pre-service checklist carries this label. *)
Theorem safety_training_label_hours (language : Language) (h : string) :
  h <> "" ->
  Full.safetyTrainingLabel language (Some h)
    = Full.safetyTrainingLabel language None ++ "(" ++ h ++ " " ++ unitWord language ++ ")"
  /\ Full.safetyTrainingLabel language (Some "") = Full.safetyTrainingLabel language None
  /\ has_paren (Full.safetyTrainingLabel language None) = false
  /\ PreService.safetyTrainingLabel language (Some h)
    = PreService.safetyTrainingLabel language None ++ "(" ++ h ++ " " ++ unitWord language ++ ")"
  /\ PreService.safetyTrainingLabel language (Some "") = PreService.safetyTrainingLabel language None
  /\ has_paren (PreService.safetyTrainingLabel language None) = false
  /\ (forall formData checkboxes,
        nth_error (Full.preServiceChecklist formData checkboxes language) 1
        = Some (createCheckboxItem (Full.safety_training checkboxes)
                  (Full.safetyTrainingLabel language (training_hours formData))))
  /\ (forall formData checkboxes,
        nth_error (PreService.preServiceChecklist formData checkboxes language) 1
        = Some (createCheckboxItem (PreService.safety_training checkboxes)
                  (PreService.safetyTrainingLabel language (training_hours formData)))).
Proof.
  intros Hh. destruct h as [|a s]; [congruence|].
  destruct language; repeat split; reflexivity.
Qed.

Lemma safety_training_label_hours_witness :
  "8" <> ""
  /\ Full.safetyTrainingLabel en (Some "8") = "Safety Training required? (8 hours)".
Proof.
  split; [discriminate|].
  rewrite (proj1 (safety_training_label_hours en "8" ltac:(discriminate))).
  reflexivity.
Defined.

(** ** Key/value values and placeholders *)

(** An image at or under the threshold is read as a data URL. *)
Lemma loadImage_small (env : Env) (url : string) (blob : Blob) (t : list Event) :
  fetch env url = Some blob -> (size blob <= maxImageSize)%Z ->
  loadImage env url t = (Resolved (PDataURL blob), app t [EvFetch url]).
Proof.
  intros Hf Hs. apply Z.ltb_ge in Hs.
  unfold loadImage, bind, emit. rewrite Hf, Hs. reflexivity.
Qed.

(** An image over the threshold is decoded; only [img.onload] settles. *)
Lemma loadImage_large (env : Env) (url : string) (blob : Blob) (t : list Event) :
  fetch env url = Some blob -> (maxImageSize < size blob)%Z ->
  loadImage env url t
  = (match decode env blob with
     | Some (w, h) => Resolved (onload env blob w h)
     | None => Pending
     end, app t [EvFetch url]).
Proof.
  intros Hf Hs. apply Z.ltb_lt in Hs.
  unfold loadImage, bind, emit. rewrite Hf, Hs.
  destruct (decode env blob) as [[w h]|]; reflexivity.
Qed.

Lemma or_dash_nonempty (s : string) : s <> "" -> or_dash s = s.
Proof. destruct s; [congruence | reflexivity]. Qed.

Lemma or_dash_empty : or_dash "" = "-".
Proof. reflexivity. Qed.

(** With both fetches succeeding with images at or under the threshold,
    the imports succeeding and pdfmake rendering [pdf], both generators
    resolve to [pdf], whatever the form data. *)
Lemma generatePDF_succeeds (env : Env) (b1 b2 pdf : Blob) :
  window_defined env = true ->
  (forall m, import_ok env m = true) ->
  fetch env "/Logo.png" = Some b1 -> fetch env "/QR.jpeg" = Some b2 ->
  (size b1 <= maxImageSize)%Z -> (size b2 <= maxImageSize)%Z ->
  (forall doc fonts, getBlob env doc fonts = Some pdf) ->
  (forall formData checkboxes language,
     fst (Full.generatePDF env formData checkboxes language []) = Resolved (Some pdf))
  /\ (forall formData checkboxes language,
     fst (PreService.generatePDF env formData checkboxes language []) = Resolved (Some pdf)).
Proof.
  intros Hw Hi H1 H2 S1 S2 Hg.
  split; intros; unfold Full.generatePDF, PreService.generatePDF; rewrite Hw; cbn -[loadImage];
    rewrite ?Hi; cbv [bind all2 emit ret settle];
    rewrite (loadImage_small _ _ _ _ H1 S1), (loadImage_small _ _ _ _ H2 S2);
    unfold createPdf; cbv [bind emit ret settle]; rewrite Hg; reflexivity.
Qed.

(** C2. In both generators every value cell of the three key/value tables
    is its form field, verbatim when nonempty and ['-'] when empty, and
    the service-reason paragraph that follows its label likewise; on the
    all-empty snapshot every value cell is ['-'] and generation succeeds
    (the imports, fetches and rendering succeeding); with
    [company = "Acme Co"], all else empty, no item checked and ['en'],
    the first table starts with the rows ["Company:", "Acme Co"] and
    ["Site Location:", "-"], and the checkbox rows are 15 ([Full]) and 6
    ([PreService]) empty squares. *)
Theorem kv_values_placeholder_and_acme (env : Env) (b1 b2 pdf : Blob) :
  window_defined env = true ->
  (forall m, import_ok env m = true) ->
  fetch env "/Logo.png" = Some b1 -> fetch env "/QR.jpeg" = Some b2 ->
  (size b1 <= maxImageSize)%Z -> (size b2 <= maxImageSize)%Z ->
  (forall doc fonts, getBlob env doc fonts = Some pdf) ->
  (* the placeholder rule *)
  (forall s, s <> "" -> or_dash s = s) /\ or_dash "" = "-"
  (* value cells and service reason, for every snapshot *)
  /\ (forall formData checkboxes language logo qr today,
        let cs := content (Full.docDefinition formData checkboxes language logo qr today) in
        valueCells cs = map (fun f => Some (or_dash (f formData))) kvFields
        /\ nth_error (flat_map texts cs) 47 = Some (pick language Full.translations.serviceReason)
        /\ nth_error (flat_map texts cs) 48 = Some (or_dash (service_reason formData)))
  /\ (forall formData checkboxes language logo qr,
        let cs := content (PreService.docDefinition formData checkboxes language logo qr) in
        valueCells cs = map (fun f => Some (or_dash (f formData))) kvFields
        /\ nth_error (flat_map texts cs) 48 = Some (pick language PreService.translations.serviceReason)
        /\ nth_error (flat_map texts cs) 49 = Some (or_dash (service_reason formData)))
  (* the all-empty snapshot *)
  /\ (forall checkboxes language logo qr today,
        valueCells (content (Full.docDefinition emptyForm checkboxes language logo qr today))
        = repeat (Some "-") 18)
  /\ (forall checkboxes language logo qr,
        valueCells (content (PreService.docDefinition emptyForm checkboxes language logo qr))
        = repeat (Some "-") 18)
  /\ (forall checkboxes language,
        fst (Full.generatePDF env emptyForm checkboxes language []) = Resolved (Some pdf))
  /\ (forall checkboxes language,
        fst (PreService.generatePDF env emptyForm checkboxes language []) = Resolved (Some pdf))
  (* the Acme scenario *)
  /\ (forall logo qr today,
        let cs := content (Full.docDefinition acmeForm noChecksFull en logo qr today) in
        map (map cellText) (firstn 2 (hd [] (map fst (flat_map tables cs))))
        = [[Some "Company:"; Some "Acme Co"]; [Some "Site Location:"; Some "-"]]
        /\ flat_map glyphRows cs = repeat [CanvasRect 0 0 10 10 1 "#374151"] 15)
  /\ (forall logo qr,
        let cs := content (PreService.docDefinition acmeForm noChecksPreService en logo qr) in
        map (map cellText) (firstn 2 (hd [] (map fst (flat_map tables cs))))
        = [[Some "Company:"; Some "Acme Co"]; [Some "Site Location:"; Some "-"]]
        /\ flat_map glyphRows cs = repeat [CanvasRect 0 0 10 10 1 "#374151"] 6).
Proof.
  intros Hw Hi H1 H2 S1 S2 Hg.
  destruct (generatePDF_succeeds env b1 b2 pdf Hw Hi H1 H2 S1 S2 Hg) as [GF GP].
  split; [exact or_dash_nonempty|]. split; [exact or_dash_empty|].
  repeat split; intros; try apply GF; try apply GP; reflexivity.
Qed.

Lemma kv_values_placeholder_and_acme_witness :
  let env := sampleEnv true smallBlob None true in
  window_defined env = true
  /\ fst (Full.generatePDF env emptyForm noChecksFull th []) = Resolved (Some pdfBlob).
Proof.
  cbv zeta. split; [reflexivity|].
  refine (proj1 (proj2 (proj2 (proj2 (proj2 (proj2 (proj2
    (kv_values_placeholder_and_acme (sampleEnv true smallBlob None true)
       smallBlob smallBlob pdfBlob eq_refl (fun _ => eq_refl) eq_refl eq_refl
       _ _ (fun _ _ => eq_refl)))))))) noChecksFull th);
  vm_compute; discriminate.
Defined.

(** ** The image normalizer *)

(** C4. An image at or under [500 * 1024] bytes is returned as the data
    URL of its own bytes; the decode-resize-reencode path is taken only
    over the threshold, where the result, once [img.onload] fires, is the
    JPEG re-encoding at quality 0.7 at the [resize]d dimensions (or [''] 
    without a 2D context). *)
Theorem loadImage_small_unchanged (env : Env) (url : string) (blob : Blob) (t : list Event) :
  fetch env url = Some blob ->
  ((size blob <= maxImageSize)%Z ->
     loadImage env url t = (Resolved (PDataURL blob), app t [EvFetch url]))
  /\ ((maxImageSize < size blob)%Z ->
     loadImage env url t
     = (match decode env blob with
        | Some (w, h) => Resolved (onload env blob w h)
        | None => Pending
        end, app t [EvFetch url])
     /\ forall w h, onload env blob w h
                    = if context2d env
                      then PCanvasJpeg (fst (resize w h)) (snd (resize w h)) 0.7 blob
                      else PEmpty).
Proof.
  intros Hf. split.
  - apply loadImage_small; exact Hf.
  - intros Hs. split; [apply loadImage_large; assumption|].
    intros w h. unfold onload. destruct (resize w h); reflexivity.
Qed.

Lemma loadImage_small_unchanged_witness :
  let env := sampleEnv true smallBlob None true in
  fetch env "/Logo.png" = Some smallBlob
  /\ (size smallBlob <= maxImageSize)%Z
  /\ loadImage env "/Logo.png" [] = (Resolved (PDataURL smallBlob), [EvFetch "/Logo.png"]).
Proof.
  cbv zeta. assert (S : (size smallBlob <= maxImageSize)%Z) by (vm_compute; discriminate).
  split; [reflexivity|]. split; [exact S|].
  exact (proj1 (loadImage_small_unchanged (sampleEnv true smallBlob None true)
                  "/Logo.png" smallBlob [] eq_refl) S).
Defined.

(** C5 (at the failing input). An oversized image that does not decode
    never fires [img.onload], and the code sets no [img.onerror]: the
    promise of [loadImage] never settles, and when every asset is such an
    image neither generator ever settles. *)
Theorem loadImage_undecodable_never_settles (env : Env) (blob : Blob) :
  (forall url, fetch env url = Some blob) ->
  (maxImageSize < size blob)%Z ->
  decode env blob = None ->
  (forall url t, fst (loadImage env url t) = Pending)
  /\ (window_defined env = true ->
      forall formData checkboxes language,
        fst (Full.generatePDF env formData checkboxes language []) = Pending)
  /\ (window_defined env = true -> (forall m, import_ok env m = true) ->
      forall formData checkboxes language,
        fst (PreService.generatePDF env formData checkboxes language []) = Pending).
Proof.
  intros Hf Hs Hd.
  assert (L : forall url t, loadImage env url t = (Pending, app t [EvFetch url])).
  { intros url t. rewrite (loadImage_large env url blob t (Hf url) Hs), Hd. reflexivity. }
  split; [intros url t; rewrite L; reflexivity|].
  split.
  - intros Hw formData checkboxes language.
    unfold Full.generatePDF. rewrite Hw. cbv [negb bind all2]. rewrite !L. reflexivity.
  - intros Hw Hi formData checkboxes language.
    unfold PreService.generatePDF. rewrite Hw. cbn -[loadImage]. rewrite !Hi.
    cbv [bind all2 emit ret settle]. rewrite !L. reflexivity.
Qed.

(** An undecodable 512001-byte PNG served for both assets. *)
Lemma loadImage_undecodable_never_settles_witness :
  let env := sampleEnv true bigBlob None true in
  (maxImageSize < size bigBlob)%Z
  /\ fst (Full.generatePDF env emptyForm noChecksFull en []) = Pending.
Proof.
  cbv zeta. assert (S : (maxImageSize < size bigBlob)%Z) by (vm_compute; reflexivity).
  split; [exact S|].
  exact (proj1 (proj2 (loadImage_undecodable_never_settles
                         (sampleEnv true bigBlob None true) bigBlob
                         (fun _ => eq_refl) S eq_refl)) eq_refl emptyForm noChecksFull en).
Defined.

(** ** Resize arithmetic *)

(** C3 (counterexample). In binary64, for a 801 x 5 image the first cap
    gives height [800 / (801 / 5)], which is not [5 * (800 / 801)]; for a
    801 x 803 image the final width [800 * (801 / 803)] is not the
    compounded [800 * (800 / h1)] with [h1] the intermediate height. *)
Lemma resize_not_exact_in_binary64 :
  resize 801 5 = (800, 800 / (801 / 5))
  /\ snd (resize 801 5) <> 5 * (800 / 801)
  /\ PrimFloat.ltb 800 (800 / (801 / 803)) = true
  /\ fst (resize 801 803) <> 800 * (800 / (800 / (801 / 803))).
Proof.
  split; [reflexivity|]. split; [vm_compute; discriminate|].
  split; [reflexivity|]. vm_compute; discriminate.
Qed.

Lemma Qle_bool_compat (x x' y y' : Q) :
  (x == x')%Q -> (y == y')%Q -> Qle_bool x y = Qle_bool x' y'.
Proof.
  intros Hx Hy.
  destruct (Qle_bool x y) eqn:E1, (Qle_bool x' y') eqn:E2; auto.
  - apply Qle_bool_iff in E1. rewrite Hx, Hy in E1. apply Qle_bool_iff in E1. congruence.
  - apply Qle_bool_iff in E2. rewrite <- Hx, <- Hy in E2. apply Qle_bool_iff in E2. congruence.
Qed.

Lemma Qltb_lt (x y : Q) : Qltb x y = true <-> (x < y)%Q.
Proof.
  unfold Qltb. rewrite negb_true_iff. split.
  - intros H. apply Qnot_le_lt. intros H'. apply Qle_bool_iff in H'. congruence.
  - intros H. destruct (Qle_bool y x) eqn:E; auto.
    apply Qle_bool_iff in E. exfalso. exact (Qlt_not_le _ _ H E).
Qed.

(** C3 (amended). For [W > 800], the code sets width exactly 800 and
    height [800 / (W / H)] in binary64, and, when that height exceeds 800,
    height exactly 800 and width [800 * (W / H)]. In exact rational
    arithmetic, for [H > 0], the first height is [H * (800 / W)]; after the
    second cap the width is below 800 and equals the compounded
    [800 * (800 / h1)] with [h1 = H * (800 / W)]. *)
Theorem resize_caps :
  (forall W H : float, PrimFloat.ltb 800 W = true ->
     resize W H = (if PrimFloat.ltb 800 (800 / (W / H))
                   then (800 * (W / H), 800)
                   else (800, 800 / (W / H))))
  /\ (forall W H : Q, (0 < H)%Q -> (800 < W)%Q ->
     let h1 := (H * (800 / W))%Q in
     if Qltb 800 h1
     then (fst (resizeQ W H) == 800 * (800 / h1))%Q /\ (snd (resizeQ W H) == 800)%Q
          /\ (fst (resizeQ W H) < 800)%Q
     else (fst (resizeQ W H) == 800)%Q /\ (snd (resizeQ W H) == h1)%Q).
Proof.
  split.
  - intros W H HW. unfold resize. rewrite HW. reflexivity.
  - intros W H HH HW h1.
    assert (W0 : ~ (W == 0)%Q) by (intro E; rewrite E in HW; discriminate HW).
    assert (H0 : ~ (H == 0)%Q) by (intro E; rewrite E in HH; discriminate HH).
    assert (R0 : (0 < W / H)%Q).
    { apply Qlt_shift_div_l; [exact HH|]. rewrite Qmult_0_l.
      apply Qlt_trans with 800%Q; [reflexivity|exact HW]. }
    assert (E1 : (800 / (W / H) == h1)%Q) by (unfold h1; field; split; assumption).
    unfold resizeQ.
    assert (HW' : Qltb 800 W = true) by (apply Qltb_lt; exact HW).
    rewrite HW'.
    assert (Hc : Qltb 800 (800 / (W / H)) = Qltb 800 h1)
      by (unfold Qltb; f_equal; apply Qle_bool_compat; [exact E1|reflexivity]).
    rewrite Hc.
    destruct (Qltb 800 h1) eqn:Hb; cbn [fst snd].
    + apply Qltb_lt in Hb.
      split; [|split].
      * unfold h1. field. repeat split; assumption.
      * reflexivity.
      * rewrite <- E1 in Hb.
        apply (Qmult_lt_r _ _ (W / H)) in Hb; [|exact R0].
        setoid_replace (800 / (W / H) * (W / H))%Q with 800%Q in Hb
          by (field; split; assumption).
        exact Hb.
    + split; [reflexivity|exact E1].
Qed.

Lemma resize_caps_witness :
  PrimFloat.ltb 800 1600 = true
  /\ resize 1600 900 = (800, 800 / (1600 / 900))
  /\ (0 < 900)%Q /\ (800 < 1600)%Q
  /\ (fst (resizeQ 1600 900) == 800)%Q.
Proof.
  assert (A : PrimFloat.ltb 800 1600 = true) by reflexivity.
  assert (B : (0 < 900)%Q) by reflexivity.
  assert (C : (800 < 1600)%Q) by reflexivity.
  split; [exact A|]. split.
  - rewrite (proj1 resize_caps 1600 900 A). reflexivity.
  - split; [exact B|]. split; [exact C|].
    pose proof (proj2 resize_caps 1600%Q 900%Q B C) as P. cbv zeta in P.
    revert P. vm_compute. intros [P _]. exact P.
Defined.


(** ** Objects of the form component *)

Section ObjectLemmas.
Context {V : Type}.

Lemma get_setKey_same (o : Form.Obj V) (k : string) (v : V) :
  Form.get (Form.setKey o k v) k = Some v.
Proof.
  induction o as [|[k' v'] o IH]; simpl.
  - rewrite String.eqb_refl. reflexivity.
  - destruct (String.eqb k' k) eqn:E; simpl; rewrite E; [reflexivity|exact IH].
Qed.

Lemma get_setKey_other (o : Form.Obj V) (k k' : string) (v : V) :
  k <> k' -> Form.get (Form.setKey o k v) k' = Form.get o k'.
Proof.
  intro Hk. induction o as [|[k0 v0] o IH]; simpl.
  - destruct (String.eqb k k') eqn:E; [apply String.eqb_eq in E; congruence|reflexivity].
  - destruct (String.eqb k0 k) eqn:E; simpl.
    + apply String.eqb_eq in E; subst k0.
      destruct (String.eqb k k') eqn:E'; [apply String.eqb_eq in E'; congruence|reflexivity].
    + destruct (String.eqb k0 k'); [reflexivity|exact IH].
Qed.

Lemma keys_setKey (o : Form.Obj V) (k : string) (v : V) :
  Form.get o k <> None -> map fst (Form.setKey o k v) = map fst o.
Proof.
  induction o as [|[k0 v0] o IH]; simpl.
  - intro H; congruence.
  - destruct (String.eqb k0 k) eqn:E; simpl; intro H; [reflexivity|].
    f_equal. exact (IH H).
Qed.

Lemma setKey_get (o : Form.Obj V) (k : string) (v : V) :
  Form.get o k = Some v -> Form.setKey o k v = o.
Proof.
  induction o as [|[k0 v0] o IH]; simpl; [discriminate|].
  destruct (String.eqb k0 k) eqn:E; intro H.
  - injection H as ->. reflexivity.
  - f_equal. exact (IH H).
Qed.

Lemma setKey_setKey (o : Form.Obj V) (k : string) (v w : V) :
  Form.setKey (Form.setKey o k v) k w = Form.setKey o k w.
Proof.
  induction o as [|[k0 v0] o IH]; simpl.
  - rewrite String.eqb_refl. reflexivity.
  - destruct (String.eqb k0 k) eqn:E; simpl; rewrite E; [reflexivity|].
    f_equal. exact IH.
Qed.

End ObjectLemmas.

Lemma flag_setKey_other (o : Form.Obj bool) (k k' : string) (v : bool) :
  k <> k' -> Form.flag (Form.setKey o k v) k' = Form.flag o k'.
Proof. intro H. unfold Form.flag. rewrite (get_setKey_other o k k' v H). reflexivity. Qed.

(** ** Lists of pending calls *)

Lemma removeAt_In {A} (i : nat) (l : list A) (x : A) :
  In x (Form.removeAt i l) -> In x l.
Proof.
  revert i. induction l as [|a l IH]; intros [|i]; simpl; auto.
  - intros [H|H]; [left; exact H|right; exact (IH i H)].
Qed.

Lemma nth_error_middle' {A} (l l' : list A) (x : A) :
  nth_error (app l (x :: l')) (length l) = Some x.
Proof. induction l as [|a l IH]; simpl; [reflexivity|exact IH]. Qed.

Lemma removeAt_middle {A} (l l' : list A) (x : A) :
  Form.removeAt (length l) (app l (x :: l')) = app l l'.
Proof.
  unfold Form.removeAt. induction l as [|a l IH]; simpl; [reflexivity|].
  f_equal. exact IH.
Qed.

(** ** Object URLs *)

Lemma resolveURL_app (u : Form.ObjectURL) (l l' : list (Form.ObjectURL * Blob)) :
  Form.resolveURL u (app l l') =
  match Form.resolveURL u l with Some b => Some b | None => Form.resolveURL u l' end.
Proof.
  induction l as [|[v b] l IH]; simpl; [reflexivity|].
  destruct (Form.url_eqb v u); [reflexivity|exact IH].
Qed.

Lemma resolveURL_fresh (n : nat) (l : list (Form.ObjectURL * Blob)) :
  (forall m b, In (Form.BlobURL m, b) l -> (m < n)%nat) ->
  Form.resolveURL (Form.BlobURL n) l = None.
Proof.
  induction l as [|[[m] b] l IH]; simpl; intro H; [reflexivity|].
  destruct (Nat.eqb m n) eqn:E.
  - apply Nat.eqb_eq in E. subst m.
    specialize (H n b (or_introl eq_refl)). exfalso. exact (Nat.lt_irrefl n H).
  - apply IH. intros m' b' Hin. exact (H m' b' (or_intror Hin)).
Qed.

Lemma resolveURL_revoke_other (u v : Form.ObjectURL) (l : list (Form.ObjectURL * Blob)) :
  Form.url_eqb v u = false ->
  Form.resolveURL u (Form.revokeObjectURL v l) = Form.resolveURL u l.
Proof.
  intro Hvu. unfold Form.revokeObjectURL.
  induction l as [|[w b] l IH]; simpl; [reflexivity|].
  destruct (Form.url_eqb w v) eqn:Ewv; simpl.
  - destruct w as [a], v as [c], u as [d]; simpl in *.
    apply Nat.eqb_eq in Ewv. subst c. rewrite Hvu. exact IH.
  - destruct (Form.url_eqb w u); [reflexivity|exact IH].
Qed.

Lemma resolveURL_revoke_same (u : Form.ObjectURL) (l : list (Form.ObjectURL * Blob)) :
  Form.resolveURL u (Form.revokeObjectURL u l) = None.
Proof.
  unfold Form.revokeObjectURL.
  induction l as [|[w b] l IH]; simpl; [reflexivity|].
  destruct (Form.url_eqb w u) eqn:E; simpl; [exact IH|].
  rewrite E. exact IH.
Qed.

Lemma In_revoke (u : Form.ObjectURL) (e : Form.ObjectURL * Blob) (l : list (Form.ObjectURL * Blob)) :
  In e (Form.revokeObjectURL u l) -> In e l.
Proof. unfold Form.revokeObjectURL. intro H. apply filter_In in H. exact (proj1 H). Qed.

Lemma url_eqb_neq (m n : nat) : m <> n -> Form.url_eqb (Form.BlobURL m) (Form.BlobURL n) = false.
Proof. intro H. simpl. apply Nat.eqb_neq. exact H. Qed.

(** ** Runs of the component *)

Lemma run_preserves (env : Env) (P : Form.State -> Prop) :
  (forall s a, P s -> P (Form.step env s a)) ->
  forall acts s, P s -> P (Form.run env s acts).
Proof.
  intros Hstep acts. induction acts as [|a acts IH]; intros s Hs; simpl; [exact Hs|].
  apply IH. apply Hstep. exact Hs.
Qed.

Lemma run_app (env : Env) (s : Form.State) (acts acts' : list Form.Action) :
  Form.run env s (app acts acts') = Form.run env (Form.run env s acts) acts'.
Proof. unfold Form.run. apply fold_left_app. Qed.

Lemma form_preview_step (env : Env) (s : Form.State) (a : Form.Action) :
  let P (s : Form.State) :=
    (Form.isPreviewOpen s = true <-> Form.pdfPreviewUrl s <> None)
    /\ (forall n, Form.pdfPreviewUrl s = Some (Form.BlobURL n) ->
          (n < Form.nextURL s)%nat /\ Form.resolveURL (Form.BlobURL n) (Form.objectURLs s) <> None)
    /\ (forall n b, In (Form.BlobURL n, b) (Form.objectURLs s) -> (n < Form.nextURL s)%nat) in
  P s -> P (Form.step env s a).
Proof.
  intros P [H1 [H2 H3]]. unfold P.
  destruct a as [name value|id|lang| |i| | ]; cbn [Form.step].
  - split; [exact H1|split; [exact H2|exact H3]].
  - split; [exact H1|split; [exact H2|exact H3]].
  - split; [exact H1|split; [exact H2|exact H3]].
  - split; [exact H1|split; [exact H2|exact H3]].
  - unfold Form.resume.
    destruct (nth_error (Form.pending s) i) as [r|]; [|split; [exact H1|split; [exact H2|exact H3]]].
    destruct (Form.generate env r) as [[b|]|e|]; cbn.
    + split; [split; [intros _; discriminate|reflexivity]|split].
      * intros n Hn. injection Hn as <-. split; [apply Nat.lt_succ_diag_r|].
        cbn [Form.objectURLs]. rewrite resolveURL_app, (resolveURL_fresh _ _ H3). simpl. rewrite Nat.eqb_refl. discriminate.
      * intros n b' Hin. apply in_app_or in Hin as [Hin|[Hin|[]]].
        -- apply Nat.lt_lt_succ_r. exact (H3 n b' Hin).
        -- injection Hin as <- _. apply Nat.lt_succ_diag_r.
    + split; [exact H1|split; [exact H2|exact H3]].
    + split; [exact H1|split; [exact H2|exact H3]].
    + split; [exact H1|split; [exact H2|exact H3]].
  - unfold Form.handleDownload. destruct (Form.pdfPreviewUrl s) eqn:E; cbn; rewrite ?E;
      (split; [exact H1|split; [exact H2|exact H3]]).
  - unfold Form.handleClosePreview. destruct (Form.pdfPreviewUrl s) as [u|]; cbn.
    + split; [split; [discriminate|intro C; exfalso; exact (C eq_refl)]|split].
      * discriminate.
      * intros n b Hin. exact (H3 n b (In_revoke _ _ _ Hin)).
    + split; [split; [discriminate|intro C; exfalso; exact (C eq_refl)]|split].
      * discriminate.
      * exact H3.
Qed.

Lemma get_initialCheckboxes_absent (k : string) :
  (forall id, Form.idName id <> k) -> Form.get Form.initialCheckboxes k = None.
Proof.
  intro Hk. unfold Form.initialCheckboxes.
  generalize Form.checkboxIds as ids. induction ids as [|id ids IH]; simpl; [reflexivity|].
  destruct (String.eqb (Form.idName id) k) eqn:E; [|exact IH].
  apply String.eqb_eq in E. exfalso. exact (Hk id E).
Qed.

Lemma form_key_absent (env : Env) (k : string) :
  (forall id, Form.idName id <> k) ->
  forall acts,
  Form.get (Form.checkboxes (Form.run env Form.initial acts)) k = None
  /\ forall r, In r (Form.pending (Form.run env Form.initial acts)) ->
       Form.get (Form.req_checkboxes r) k = None.
Proof.
  intros Hk acts.
  apply (run_preserves env (fun s => Form.get (Form.checkboxes s) k = None
           /\ forall r, In r (Form.pending s) -> Form.get (Form.req_checkboxes r) k = None)).
  - intros s a [H1 H2].
    destruct a as [name value|id|lang| |i| | ]; cbn [Form.step].
    + cbn. split; assumption.
    + cbn. unfold Form.handleCheckboxChange. rewrite get_setKey_other by apply Hk.
      split; assumption.
    + cbn. split; assumption.
    + cbn. split; [assumption|].
      intros r Hr. apply in_app_or in Hr as [Hr|[<-|[]]]; [exact (H2 r Hr)|exact H1].
    + unfold Form.resume. destruct (nth_error (Form.pending s) i) as [r0|]; [|split; assumption].
      destruct (Form.generate env r0) as [[b|]|e|]; cbn;
        (split; [assumption|]); try exact H2;
        intros r Hr; exact (H2 r (removeAt_In _ _ _ Hr)).
    + unfold Form.handleDownload. destruct (Form.pdfPreviewUrl s); cbn; split; assumption.
    + unfold Form.handleClosePreview. destruct (Form.pdfPreviewUrl s); cbn; split; assumption.
  - cbn. split; [exact (get_initialCheckboxes_absent k Hk)|intros r []].
Qed.

(** ** Checkbox rows of the documents *)

Lemma Full_glyph_rows (formData : FormData) (checkboxes : Full.Checkboxes)
    (language : Language) (logo qr : Payload) (today : string) :
  flat_map glyphRows
    (content (applyTableLayouts (Full.docDefinition formData checkboxes language logo qr today)))
  = map (fun checked : bool =>
           CanvasRect 0 0 10 10 1 "#374151"
           :: (if checked
               then [CanvasLine 2 5 4 8 1.5 "#1F2937"; CanvasLine 4 8 8 2 1.5 "#1F2937"]
               else []))
        [Full.power_isolated checkboxes; Full.valves_locked checkboxes;
         Full.pump_drained checkboxes; Full.auxiliary_disconnected checkboxes;
         Full.coupling_guard_removed checkboxes; Full.coupling_disconnected checkboxes;
         Full.pump_cleaned checkboxes; Full.openings_protected checkboxes;
         Full.photos_taken checkboxes;
         Full.system_flush checkboxes; Full.safety_training checkboxes;
         Full.harmless_form checkboxes; Full.sds checkboxes;
         Full.alignment_report checkboxes; Full.operation_records checkboxes].
Proof. destruct language; reflexivity. Qed.

(** ** Traces of the generators *)

Lemma loadImage_trace (env : Env) (url : string) (t : list Event) :
  snd (loadImage env url t) = app t [EvFetch url].
Proof.
  unfold loadImage, bind, emit, settle, ret.
  destruct (fetch env url) as [b|]; [|reflexivity].
  destruct (Z.ltb maxImageSize (size b)); [|reflexivity].
  destruct (decode env b) as [[w h]|]; reflexivity.
Qed.

Lemma loadImage_rejected (env : Env) (url : string) (t : list Event) (e : Error) :
  fst (loadImage env url t) = Rejected e -> e = FetchFailed url /\ fetch env url = None.
Proof.
  unfold loadImage, bind, emit, settle, ret.
  destruct (fetch env url) as [b|]; [|cbn; intro H; injection H as <-; split; reflexivity].
  destruct (Z.ltb maxImageSize (size b)); [|discriminate].
  destruct (decode env b) as [[w h]|]; discriminate.
Qed.

Lemma loadImage_fetch_none (env : Env) (url : string) (t : list Event) :
  fetch env url = None -> fst (loadImage env url t) = Rejected (FetchFailed url).
Proof. intro H. unfold loadImage, bind, emit, settle. rewrite H. reflexivity. Qed.

Lemma createPdf_run (env : Env) (fonts : FontDictionary) (doc : TDocumentDefinitions)
    (t : list Event) :
  createPdf env fonts doc t
  = (match getBlob env doc fonts with
     | Some b => Resolved (Some b)
     | None => Rejected RenderFailed
     end, app t [EvCreatePdf]).
Proof. unfold createPdf, bind, emit, settle, ret. destruct (getBlob env doc fonts); reflexivity. Qed.

(** ** Extras: the document trees *)

(** [X1] In the document that [generatePDF.ts] hands to pdfmake, the
    checkbox glyphs are, in order, the nine pump-preparation items and the
    six customer-preparation items; each draws the same 10x10 box, and a
    checked item adds the two strokes of a check mark. *)
Theorem Full_checkbox_rows_follow_checkboxes (formData : FormData)
    (checkboxes : Full.Checkboxes) (language : Language) (logo qr : Payload)
    (today : string) :
  flat_map glyphRows
    (content (applyTableLayouts (Full.docDefinition formData checkboxes language logo qr today)))
  = map (fun checked : bool =>
           CanvasRect 0 0 10 10 1 "#374151"
           :: (if checked
               then [CanvasLine 2 5 4 8 1.5 "#1F2937"; CanvasLine 4 8 8 2 1.5 "#1F2937"]
               else []))
        [Full.power_isolated checkboxes; Full.valves_locked checkboxes;
         Full.pump_drained checkboxes; Full.auxiliary_disconnected checkboxes;
         Full.coupling_guard_removed checkboxes; Full.coupling_disconnected checkboxes;
         Full.pump_cleaned checkboxes; Full.openings_protected checkboxes;
         Full.photos_taken checkboxes;
         Full.system_flush checkboxes; Full.safety_training checkboxes;
         Full.harmless_form checkboxes; Full.sds checkboxes;
         Full.alignment_report checkboxes; Full.operation_records checkboxes].
Proof. exact (Full_glyph_rows formData checkboxes language logo qr today). Qed.

(** [X2] In the document of [part_003], the checkbox glyphs are the six
    pre-service items in order, drawn as in [generatePDF.ts]. *)
Theorem PreService_checkbox_rows_follow_checkboxes (formData : FormData)
    (checkboxes : PreService.Checkboxes) (language : Language) (logo qr : Payload) :
  flat_map glyphRows
    (content (applyTableLayouts (PreService.docDefinition formData checkboxes language logo qr)))
  = map (fun checked : bool =>
           CanvasRect 0 0 10 10 1 "#374151"
           :: (if checked
               then [CanvasLine 2 5 4 8 1.5 "#1F2937"; CanvasLine 4 8 8 2 1.5 "#1F2937"]
               else []))
        [PreService.system_flush checkboxes; PreService.safety_training checkboxes;
         PreService.harmless_form checkboxes; PreService.sds checkboxes;
         PreService.alignment_report checkboxes; PreService.operation_records checkboxes].
Proof. destruct language; reflexivity. Qed.

(** [X3] The table-layout post-pass changes nothing but table layouts: the
    texts, the table bodies, the checkbox glyphs and every other field of
    the document are those of the document it is given. *)
Theorem applyTableLayouts_keeps_everything_but_layouts (doc : TDocumentDefinitions) :
  flat_map texts (content (applyTableLayouts doc)) = flat_map texts (content doc)
  /\ map fst (flat_map tables (content (applyTableLayouts doc)))
     = map fst (flat_map tables (content doc))
  /\ flat_map glyphRows (content (applyTableLayouts doc)) = flat_map glyphRows (content doc)
  /\ length (content (applyTableLayouts doc)) = length (content doc)
  /\ info (applyTableLayouts doc) = info doc
  /\ pageSize (applyTableLayouts doc) = pageSize doc
  /\ pageMargins (applyTableLayouts doc) = pageMargins doc
  /\ defaultStyle (applyTableLayouts doc) = defaultStyle doc
  /\ styles (applyTableLayouts doc) = styles doc.
Proof.
  destruct doc as [i ps pm ds cs st]. unfold applyTableLayouts. cbn.
  split; [|split; [|split; [|split]]].
  - induction cs as [|c cs IH]; [reflexivity|]. cbn. rewrite IH.
    destruct c; reflexivity.
  - induction cs as [|c cs IH]; [reflexivity|]. cbn. rewrite !map_app, IH.
    destruct c; reflexivity.
  - induction cs as [|c cs IH]; [reflexivity|]. cbn. rewrite IH.
    destruct c; reflexivity.
  - apply length_map.
  - repeat split.
Qed.

(** [X4] In [part_003] every table is a top-level item, so the post-pass
    gives each of its three tables the [lightHorizontalLines] layout
    object. *)
Theorem PreService_every_table_gets_layout (formData : FormData)
    (checkboxes : PreService.Checkboxes) (language : Language) (logo qr : Payload) :
  map snd (flat_map tables
    (content (applyTableLayouts (PreService.docDefinition formData checkboxes language logo qr))))
  = repeat (LObject lightHorizontalLines) 3.
Proof. destruct language; reflexivity. Qed.

(** ** Extras: effects and failures of the generators *)

(** [X5] [generatePDF.ts] fetches the logo, then the QR code, then calls
    pdfmake, and stops at the first step that fails: its effects are always
    a prefix of that sequence, and it resolves with a blob only after
    pdfmake was called. *)
Theorem Full_generatePDF_effect_order (env : Env) (formData : FormData)
    (checkboxes : Full.Checkboxes) (language : Language) :
  exists n,
    snd (Full.generatePDF env formData checkboxes language [])
    = firstn n [EvFetch "/Logo.png"; EvFetch "/QR.jpeg"; EvCreatePdf]
    /\ (forall b, fst (Full.generatePDF env formData checkboxes language []) = Resolved (Some b) ->
          n = 3%nat).
Proof.
  unfold Full.generatePDF. destruct (window_defined env); cbn [negb].
  - cbv [bind all2].
    destruct (loadImage env "/Logo.png" []) as [o1 t1] eqn:L1.
    destruct (loadImage env "/QR.jpeg" t1) as [o2 t2] eqn:L2.
    pose proof (f_equal snd L1) as T1. rewrite loadImage_trace in T1. cbn in T1. subst t1.
    pose proof (f_equal snd L2) as T2. rewrite loadImage_trace in T2.
    cbn in T2. subst t2.
    destruct o1 as [a1|e1|], o2 as [a2|e2|];
      try (exists 2%nat; split; [reflexivity|intros b H; discriminate H]).
    exists 3%nat. rewrite createPdf_run. split; [reflexivity|intros; reflexivity].
  - exists 0%nat. split; [reflexivity|intros b H; discriminate H].
Qed.

(** [X6] When the window exists and fetching the logo or the QR code
    fails, [generatePDF.ts] rejects with the failure of a fetch that failed,
    after starting both fetches, and never calls pdfmake. *)
Theorem Full_generatePDF_fetch_failure (env : Env) (formData : FormData)
    (checkboxes : Full.Checkboxes) (language : Language) :
  window_defined env = true ->
  fetch env "/Logo.png" = None \/ fetch env "/QR.jpeg" = None ->
  exists url, fetch env url = None
    /\ Full.generatePDF env formData checkboxes language []
       = (Rejected (FetchFailed url), [EvFetch "/Logo.png"; EvFetch "/QR.jpeg"]).
Proof.
  intros Hw Hf. unfold Full.generatePDF. rewrite Hw. cbn [negb].
  cbv [bind all2].
  destruct (loadImage env "/Logo.png" []) as [o1 t1] eqn:L1.
  destruct (loadImage env "/QR.jpeg" t1) as [o2 t2] eqn:L2.
  pose proof (f_equal snd L1) as T1. rewrite loadImage_trace in T1. cbn in T1. subst t1.
  pose proof (f_equal snd L2) as T2. rewrite loadImage_trace in T2.
  cbn in T2. subst t2.
  destruct Hf as [Hf|Hf].
  - pose proof (loadImage_fetch_none env "/Logo.png" [] Hf) as R. rewrite L1 in R. cbn in R. subst o1.
    exists "/Logo.png". split; [exact Hf|reflexivity].
  - pose proof (loadImage_fetch_none env "/QR.jpeg" [EvFetch "/Logo.png"] Hf) as R.
    rewrite L2 in R. cbn in R. subst o2.
    destruct o1 as [a1|e1|].
    + exists "/QR.jpeg". split; [exact Hf|reflexivity].
    + pose proof (loadImage_rejected env "/Logo.png" [] e1) as R. rewrite L1 in R.
      destruct (R eq_refl) as [-> H1]. exists "/Logo.png". split; [exact H1|reflexivity].
    + exists "/QR.jpeg". split; [exact Hf|reflexivity].
Qed.

Lemma Full_generatePDF_fetch_failure_witness :
  window_defined offlineEnv = true
  /\ (fetch offlineEnv "/Logo.png" = None \/ fetch offlineEnv "/QR.jpeg" = None)
  /\ exists url, fetch offlineEnv url = None
       /\ Full.generatePDF offlineEnv emptyForm noChecksFull en []
          = (Rejected (FetchFailed url), [EvFetch "/Logo.png"; EvFetch "/QR.jpeg"]).
Proof.
  assert (Hw : window_defined offlineEnv = true) by reflexivity.
  assert (Hf : fetch offlineEnv "/Logo.png" = None \/ fetch offlineEnv "/QR.jpeg" = None)
    by (left; reflexivity).
  split; [exact Hw|split; [exact Hf|]].
  exact (Full_generatePDF_fetch_failure offlineEnv emptyForm noChecksFull en Hw Hf).
Defined.

(** [X7] When both images load but pdfmake throws, [generatePDF.ts]
    rejects with the rendering error after both fetches and one pdfmake
    call. *)
Theorem Full_generatePDF_render_failure (env : Env) (formData : FormData)
    (checkboxes : Full.Checkboxes) (language : Language) (b1 b2 : Blob) :
  window_defined env = true ->
  fetch env "/Logo.png" = Some b1 -> fetch env "/QR.jpeg" = Some b2 ->
  (size b1 <= maxImageSize)%Z -> (size b2 <= maxImageSize)%Z ->
  (forall doc fonts, getBlob env doc fonts = None) ->
  Full.generatePDF env formData checkboxes language []
  = (Rejected RenderFailed, [EvFetch "/Logo.png"; EvFetch "/QR.jpeg"; EvCreatePdf]).
Proof.
  intros Hw H1 H2 S1 S2 Hg. unfold Full.generatePDF. rewrite Hw. cbn [negb].
  cbv [bind all2].
  rewrite (loadImage_small _ _ _ _ H1 S1), (loadImage_small _ _ _ _ H2 S2).
  rewrite createPdf_run, Hg. reflexivity.
Qed.

Lemma Full_generatePDF_render_failure_witness :
  Full.generatePDF brokenRendererEnv acmeForm noChecksFull th []
  = (Rejected RenderFailed, [EvFetch "/Logo.png"; EvFetch "/QR.jpeg"; EvCreatePdf]).
Proof.
  apply (Full_generatePDF_render_failure brokenRendererEnv acmeForm noChecksFull th
           smallBlob smallBlob); try reflexivity.
  - vm_compute. discriminate.
  - vm_compute. discriminate.
Defined.

(** [X8] [part_003] imports pdfmake, then its fonts, then fetches the logo
    and the QR code, then calls pdfmake, and stops at the first step that
    fails: its effects are always a prefix of that sequence, and it
    resolves with a blob only after pdfmake was called. *)
Theorem PreService_generatePDF_effect_order (env : Env) (formData : FormData)
    (checkboxes : PreService.Checkboxes) (language : Language) :
  exists n,
    snd (PreService.generatePDF env formData checkboxes language [])
    = firstn n [EvImport "pdfmake/build/pdfmake"; EvImport "pdfmake/build/vfs_fonts";
                EvFetch "/Logo.png"; EvFetch "/QR.jpeg"; EvCreatePdf]
    /\ (forall b, fst (PreService.generatePDF env formData checkboxes language [])
                  = Resolved (Some b) -> n = 5%nat).
Proof.
  unfold PreService.generatePDF. destruct (window_defined env); cbn [negb].
  - cbv [bind emit settle ret].
    destruct (import_ok env "pdfmake/build/pdfmake");
      [|exists 1%nat; split; [reflexivity|intros b H; discriminate H]].
    destruct (import_ok env "pdfmake/build/vfs_fonts");
      [|exists 2%nat; split; [reflexivity|intros b H; discriminate H]].
    unfold all2.
    destruct (loadImage env "/Logo.png" _) as [o1 t1] eqn:L1.
    destruct (loadImage env "/QR.jpeg" t1) as [o2 t2] eqn:L2.
    pose proof (f_equal snd L1) as T1. rewrite loadImage_trace in T1. cbn in T1. subst t1.
    pose proof (f_equal snd L2) as T2. rewrite loadImage_trace in T2. cbn in T2. subst t2.
    destruct o1 as [a1|e1|], o2 as [a2|e2|];
      try (exists 4%nat; split; [reflexivity|intros b H; discriminate H]).
    exists 5%nat. rewrite createPdf_run. split; [reflexivity|intros; reflexivity].
  - exists 0%nat. split; [reflexivity|intros b H; discriminate H].
Qed.

(** [X9] When the window exists and a dynamic import fails, [part_003]
    rejects with that import's failure, and fetches no image: a failed
    [pdfmake] import stops before the font import, and a failed font import
    stops before any fetch. *)
Theorem PreService_generatePDF_import_failure (env : Env) (formData : FormData)
    (checkboxes : PreService.Checkboxes) (language : Language) :
  window_defined env = true ->
  (import_ok env "pdfmake/build/pdfmake" = false ->
   PreService.generatePDF env formData checkboxes language []
   = (Rejected (ImportFailed "pdfmake/build/pdfmake"), [EvImport "pdfmake/build/pdfmake"]))
  /\ (import_ok env "pdfmake/build/pdfmake" = true ->
      import_ok env "pdfmake/build/vfs_fonts" = false ->
      PreService.generatePDF env formData checkboxes language []
      = (Rejected (ImportFailed "pdfmake/build/vfs_fonts"),
         [EvImport "pdfmake/build/pdfmake"; EvImport "pdfmake/build/vfs_fonts"])).
Proof.
  intros Hw. unfold PreService.generatePDF. rewrite Hw. cbn [negb].
  cbv [bind emit settle ret]. split.
  - intros H1. rewrite H1. reflexivity.
  - intros H1 H2. rewrite H1, H2. reflexivity.
Qed.

Lemma PreService_generatePDF_import_failure_witness :
  window_defined noPdfmakeEnv = true
  /\ import_ok noPdfmakeEnv "pdfmake/build/pdfmake" = false
  /\ PreService.generatePDF noPdfmakeEnv acmeForm noChecksPreService en []
     = (Rejected (ImportFailed "pdfmake/build/pdfmake"), [EvImport "pdfmake/build/pdfmake"]).
Proof.
  assert (Hw : window_defined noPdfmakeEnv = true) by reflexivity.
  assert (Hi : import_ok noPdfmakeEnv "pdfmake/build/pdfmake" = false) by reflexivity.
  split; [exact Hw|split; [exact Hi|]].
  exact (proj1 (PreService_generatePDF_import_failure noPdfmakeEnv acmeForm noChecksPreService en Hw) Hi).
Defined.

(** ** Extras: the form component *)

(** [X10] [handleInputChange] stores the typed value under the input's
    name, leaves every other property as it was, and keeps the keys (and
    their order) of a form object that already has that property. *)
Theorem form_handleInputChange_lookup (prev : Form.Obj string) (name value : string) :
  Form.get (Form.handleInputChange name value prev) name = Some value
  /\ (forall k, k <> name -> Form.get (Form.handleInputChange name value prev) k = Form.get prev k)
  /\ (Form.get prev name <> None -> map fst (Form.handleInputChange name value prev) = map fst prev).
Proof.
  unfold Form.handleInputChange. split; [apply get_setKey_same|split].
  - intros k Hk. apply get_setKey_other. intro E. exact (Hk (eq_sym E)).
  - apply keys_setKey.
Qed.

(** [X11] On an object that has the property, [handleCheckboxChange id]
    flips it, leaves every other property as it was, and undoes itself when
    applied twice. *)
Theorem form_handleCheckboxChange_toggles (id : Form.CheckboxId) (prev : Form.Obj bool)
    (b : bool) :
  Form.get prev (Form.idName id) = Some b ->
  Form.get (Form.handleCheckboxChange id prev) (Form.idName id) = Some (negb b)
  /\ (forall k, k <> Form.idName id ->
        Form.get (Form.handleCheckboxChange id prev) k = Form.get prev k)
  /\ Form.handleCheckboxChange id (Form.handleCheckboxChange id prev) = prev.
Proof.
  intro H. unfold Form.handleCheckboxChange.
  assert (F : Form.flag prev (Form.idName id) = b) by (unfold Form.flag; rewrite H; reflexivity).
  rewrite F. split; [apply get_setKey_same|split].
  - intros k Hk. apply get_setKey_other. intro E. exact (Hk (eq_sym E)).
  - assert (F' : Form.flag (Form.setKey prev (Form.idName id) (negb b)) (Form.idName id) = negb b)
      by (unfold Form.flag; rewrite get_setKey_same; reflexivity).
    rewrite F', setKey_setKey, negb_involutive. exact (setKey_get _ _ _ H).
Qed.

Lemma form_handleCheckboxChange_toggles_witness :
  Form.get Form.initialCheckboxes (Form.idName Form.sds) = Some false
  /\ Form.get (Form.handleCheckboxChange Form.sds Form.initialCheckboxes) (Form.idName Form.sds)
     = Some true
  /\ (forall k, k <> Form.idName Form.sds ->
        Form.get (Form.handleCheckboxChange Form.sds Form.initialCheckboxes) k
        = Form.get Form.initialCheckboxes k)
  /\ Form.handleCheckboxChange Form.sds (Form.handleCheckboxChange Form.sds Form.initialCheckboxes)
     = Form.initialCheckboxes.
Proof.
  assert (H : Form.get Form.initialCheckboxes (Form.idName Form.sds) = Some false) by reflexivity.
  split; [exact H|].
  exact (form_handleCheckboxChange_toggles Form.sds Form.initialCheckboxes false H).
Defined.

(** [X12] The form stores four checklist items under other names than
    [generatePDF.ts] reads ([power_isolation], [aux_systems],
    [coupling_guard], [coupling] against [power_isolated],
    [auxiliary_disconnected], [coupling_guard_removed],
    [coupling_disconnected]). So in every document the form asks for,
    whatever the user ticked, the pump-preparation rows 1, 4, 5 and 6 draw
    an empty box. *)
Theorem form_renamed_items_always_unchecked (env : Env) (acts : list Form.Action)
    (r : Form.Request) (logo qr : Payload) (today : string) :
  In r (Form.pending (Form.run env Form.initial acts)) ->
  let rows := flat_map glyphRows
    (content (applyTableLayouts
       (Full.docDefinition (Form.asFormData (Form.req_formData r))
          (Form.asCheckboxes (Form.req_checkboxes r)) (Form.req_language r) logo qr today))) in
  nth_error rows 0 = Some [CanvasRect 0 0 10 10 1 "#374151"]
  /\ nth_error rows 3 = Some [CanvasRect 0 0 10 10 1 "#374151"]
  /\ nth_error rows 4 = Some [CanvasRect 0 0 10 10 1 "#374151"]
  /\ nth_error rows 5 = Some [CanvasRect 0 0 10 10 1 "#374151"].
Proof.
  intros Hr rows. unfold rows. rewrite Full_glyph_rows.
  assert (A : forall k, (forall id, Form.idName id <> k) ->
                Form.flag (Form.req_checkboxes r) k = false).
  { intros k Hk. unfold Form.flag.
    rewrite (proj2 (form_key_absent env k Hk acts) r Hr). reflexivity. }
  cbn [map nth_error Full.power_isolated Full.auxiliary_disconnected
       Full.coupling_guard_removed Full.coupling_disconnected Form.asCheckboxes].
  rewrite !A by (intros []; cbn; discriminate).
  repeat split.
Qed.

Lemma form_renamed_items_always_unchecked_witness :
  let acts := [Form.CheckboxChange Form.power_isolation; Form.CheckboxChange Form.aux_systems;
               Form.CheckboxChange Form.coupling_guard; Form.CheckboxChange Form.coupling;
               Form.Submit] in
  let env := sampleEnv true smallBlob None true in
  let r := {| Form.req_formData := Form.initialFormData;
              Form.req_checkboxes :=
                Form.checkboxes (Form.run env Form.initial (removelast acts));
              Form.req_language := en |} in
  In r (Form.pending (Form.run env Form.initial acts))
  /\ Form.get (Form.req_checkboxes r) "power_isolation" = Some true
  /\ let rows := flat_map glyphRows
       (content (applyTableLayouts
          (Full.docDefinition (Form.asFormData (Form.req_formData r))
             (Form.asCheckboxes (Form.req_checkboxes r)) (Form.req_language r)
             (PDataURL smallBlob) (PDataURL smallBlob) "15.10.2026"))) in
     nth_error rows 0 = Some [CanvasRect 0 0 10 10 1 "#374151"]
     /\ nth_error rows 3 = Some [CanvasRect 0 0 10 10 1 "#374151"]
     /\ nth_error rows 4 = Some [CanvasRect 0 0 10 10 1 "#374151"]
     /\ nth_error rows 5 = Some [CanvasRect 0 0 10 10 1 "#374151"].
Proof.
  intros acts env r.
  assert (H : In r (Form.pending (Form.run env Form.initial acts))) by (left; reflexivity).
  split; [exact H|split; [reflexivity|]].
  exact (form_renamed_items_always_unchecked env acts r
           (PDataURL smallBlob) (PDataURL smallBlob) "15.10.2026" H).
Defined.

(** [X13] Ticking or unticking one of those four items changes nothing
    that [generatePDF.ts] reads from the checkbox object. *)
Theorem form_renamed_toggle_ignored (id : Form.CheckboxId) (prev : Form.Obj bool) :
  In id [Form.power_isolation; Form.aux_systems; Form.coupling_guard; Form.coupling] ->
  Form.asCheckboxes (Form.handleCheckboxChange id prev) = Form.asCheckboxes prev.
Proof.
  intro Hid. unfold Form.asCheckboxes, Form.handleCheckboxChange.
  destruct Hid as [<-|[<-|[<-|[<-|[]]]]]; cbn [Form.idName];
    rewrite !flag_setKey_other by (apply String.eqb_neq; reflexivity); reflexivity.
Qed.

Lemma form_renamed_toggle_ignored_witness :
  In Form.coupling [Form.power_isolation; Form.aux_systems; Form.coupling_guard; Form.coupling]
  /\ Form.get (Form.handleCheckboxChange Form.coupling Form.initialCheckboxes) "coupling"
     = Some true
  /\ Form.asCheckboxes (Form.handleCheckboxChange Form.coupling Form.initialCheckboxes)
     = Form.asCheckboxes Form.initialCheckboxes.
Proof.
  assert (H : In Form.coupling
                [Form.power_isolation; Form.aux_systems; Form.coupling_guard; Form.coupling])
    by (right; right; right; left; reflexivity).
  split; [exact H|split; [reflexivity|]].
  exact (form_renamed_toggle_ignored Form.coupling Form.initialCheckboxes H).
Defined.

Lemma form_preview_run (env : Env) (acts : list Form.Action) :
  let s := Form.run env Form.initial acts in
  (Form.isPreviewOpen s = true <-> Form.pdfPreviewUrl s <> None)
  /\ (forall n, Form.pdfPreviewUrl s = Some (Form.BlobURL n) ->
        (n < Form.nextURL s)%nat /\ Form.resolveURL (Form.BlobURL n) (Form.objectURLs s) <> None)
  /\ (forall n b, In (Form.BlobURL n, b) (Form.objectURLs s) -> (n < Form.nextURL s)%nat).
Proof.
  apply (run_preserves env (fun s =>
    (Form.isPreviewOpen s = true <-> Form.pdfPreviewUrl s <> None)
    /\ (forall n, Form.pdfPreviewUrl s = Some (Form.BlobURL n) ->
          (n < Form.nextURL s)%nat /\ Form.resolveURL (Form.BlobURL n) (Form.objectURLs s) <> None)
    /\ (forall n b, In (Form.BlobURL n, b) (Form.objectURLs s) -> (n < Form.nextURL s)%nat))).
  - intros s a H. exact (form_preview_step env s a H).
  - cbn. split; [split; [discriminate|intro C; exfalso; exact (C eq_refl)]|].
    split; [discriminate|intros n b []].
Qed.

Lemma form_submit_settle (env : Env) (s : Form.State) :
  Form.resume env (Form.submit s) (length (Form.pending s))
  = match Form.generate env {| Form.req_formData := Form.formData s;
                               Form.req_checkboxes := Form.checkboxes s;
                               Form.req_language := Form.language s |} with
    | Pending => Form.submit s
    | Resolved (Some pdfBlob) =>
        {| Form.language := Form.language s; Form.formData := Form.formData s;
           Form.checkboxes := Form.checkboxes s;
           Form.isPreviewOpen := true; Form.pdfPreviewUrl := Some (Form.BlobURL (Form.nextURL s));
           Form.pending := Form.pending s;
           Form.objectURLs := app (Form.objectURLs s) [(Form.BlobURL (Form.nextURL s), pdfBlob)];
           Form.nextURL := S (Form.nextURL s); Form.effects := Form.effects s |}
    | Resolved None => s
    | Rejected _ =>
        {| Form.language := Form.language s; Form.formData := Form.formData s;
           Form.checkboxes := Form.checkboxes s;
           Form.isPreviewOpen := Form.isPreviewOpen s; Form.pdfPreviewUrl := Form.pdfPreviewUrl s;
           Form.pending := Form.pending s;
           Form.objectURLs := Form.objectURLs s; Form.nextURL := Form.nextURL s;
           Form.effects := app (Form.effects s) [Form.Alert (Form.errorMessage (Form.language s))] |}
    end.
Proof.
  unfold Form.resume. cbn [Form.submit Form.pending].
  rewrite nth_error_middle'.
  cbn [Form.submit Form.pending Form.language Form.formData Form.checkboxes Form.isPreviewOpen
       Form.pdfPreviewUrl Form.objectURLs Form.nextURL Form.effects Form.req_language].
  rewrite removeAt_middle, app_nil_r.
  destruct (Form.generate env _) as [[b|]|e|]; [reflexivity| |reflexivity|reflexivity].
  destruct s; reflexivity.
Qed.

Lemma resume_resolved (env : Env) (s : Form.State) (i : nat) (r : Form.Request) (b : Blob) :
  nth_error (Form.pending s) i = Some r ->
  Form.generate env r = Resolved (Some b) ->
  Form.objectURLs (Form.resume env s i) = app (Form.objectURLs s) [(Form.BlobURL (Form.nextURL s), b)]
  /\ Form.nextURL (Form.resume env s i) = S (Form.nextURL s)
  /\ Form.pdfPreviewUrl (Form.resume env s i) = Some (Form.BlobURL (Form.nextURL s))
  /\ Form.pending (Form.resume env s i) = Form.removeAt i (Form.pending s).
Proof.
  intros Hr Hg. unfold Form.resume. rewrite Hr, Hg. cbn. repeat split.
Qed.

(** [X14] In every state the form reaches, the preview modal is open
    exactly when there is a preview URL, and that URL is a live object URL
    the browser created; every object URL was created from the counter
    before its current value, so the next one is fresh. *)
Theorem form_preview_invariant (env : Env) (acts : list Form.Action) :
  let s := Form.run env Form.initial acts in
  (Form.isPreviewOpen s = true <-> Form.pdfPreviewUrl s <> None)
  /\ (forall n, Form.pdfPreviewUrl s = Some (Form.BlobURL n) ->
        (n < Form.nextURL s)%nat /\ Form.resolveURL (Form.BlobURL n) (Form.objectURLs s) <> None)
  /\ (forall n b, In (Form.BlobURL n, b) (Form.objectURLs s) -> (n < Form.nextURL s)%nat).
Proof. exact (form_preview_run env acts). Qed.

(** [X15] Whenever the form shows [PDFPreviewModal] open, the modal's body
    is the iframe of a live PDF object URL, never its "Loading preview..."
    placeholder. *)
Theorem form_open_modal_shows_pdf (env : Env) (acts : list Form.Action) :
  let s := Form.run env Form.initial acts in
  Form.open (Form.modal s) = true ->
  exists u b, Form.body (Form.modal s) = Form.Iframe u
              /\ Form.resolveURL u (Form.objectURLs s) = Some b.
Proof.
  intros s Hopen. pose proof (form_preview_run env acts) as [H1 [H2 _]]. fold s in H1, H2.
  unfold Form.modal, Form.PDFPreviewModal in *. cbn [Form.open Form.body] in *.
  apply H1 in Hopen.
  destruct (Form.pdfPreviewUrl s) as [[n]|] eqn:E; [|exfalso; exact (Hopen eq_refl)].
  destruct (H2 n eq_refl) as [_ L].
  destruct (Form.resolveURL (Form.BlobURL n) (Form.objectURLs s)) as [b|] eqn:R;
    [|exfalso; exact (L eq_refl)].
  exists (Form.BlobURL n), b. split; [reflexivity|exact R].
Qed.

Lemma form_open_modal_shows_pdf_witness :
  Form.open (Form.modal (Form.run (sampleEnv true smallBlob None true) Form.initial
                           [Form.Submit; Form.Settle 0%nat])) = true
  /\ exists u b,
       Form.body (Form.modal (Form.run (sampleEnv true smallBlob None true) Form.initial
                                [Form.Submit; Form.Settle 0%nat])) = Form.Iframe u
       /\ Form.resolveURL u (Form.objectURLs (Form.run (sampleEnv true smallBlob None true)
                                                Form.initial [Form.Submit; Form.Settle 0%nat]))
          = Some b.
Proof.
  assert (H : Form.open (Form.modal (Form.run (sampleEnv true smallBlob None true) Form.initial
                                       [Form.Submit; Form.Settle 0%nat])) = true)
    by reflexivity.
  split; [exact H|].
  exact (form_open_modal_shows_pdf (sampleEnv true smallBlob None true)
           [Form.Submit; Form.Settle 0%nat] H).
Defined.

(** [X16] From any state the form reaches, if [generatePDF] resolves with a
    blob for the current form, then submitting, letting that call settle and
    clicking Download opens the preview on a new object URL and downloads
    exactly that blob as [pump-service-checklist.pdf]. *)
Theorem form_submit_then_download (env : Env) (acts : list Form.Action) (b : Blob) :
  let s := Form.run env Form.initial acts in
  Form.generate env {| Form.req_formData := Form.formData s;
                       Form.req_checkboxes := Form.checkboxes s;
                       Form.req_language := Form.language s |} = Resolved (Some b) ->
  let s' := Form.run env s [Form.Submit; Form.Settle (length (Form.pending s)); Form.DownloadClick] in
  Form.isPreviewOpen s' = true
  /\ Form.pdfPreviewUrl s' = Some (Form.BlobURL (Form.nextURL s))
  /\ Form.pending s' = Form.pending s
  /\ Form.effects s' = app (Form.effects s) [Form.Download "pump-service-checklist.pdf" (Some b)].
Proof.
  intros s. pose proof (form_preview_run env acts) as [_ [_ F]]. fold s in F. clearbody s.
  intros H s'. subst s'. cbn [Form.run fold_left Form.step].
  rewrite form_submit_settle, H.
  unfold Form.handleDownload. cbn.
  rewrite resolveURL_app, (resolveURL_fresh _ _ F). cbn. rewrite Nat.eqb_refl.
  repeat split.
Qed.

Lemma form_submit_then_download_witness :
  let env := sampleEnv true smallBlob None true in
  Form.generate env {| Form.req_formData := Form.formData (Form.run env Form.initial []);
                       Form.req_checkboxes := Form.checkboxes (Form.run env Form.initial []);
                       Form.req_language := Form.language (Form.run env Form.initial []) |}
  = Resolved (Some pdfBlob)
  /\ Form.effects (Form.run env Form.initial [Form.Submit; Form.Settle 0%nat; Form.DownloadClick])
     = [Form.Download "pump-service-checklist.pdf" (Some pdfBlob)].
Proof.
  intros env.
  assert (H : Form.generate env {| Form.req_formData := Form.formData (Form.run env Form.initial []);
                                   Form.req_checkboxes := Form.checkboxes (Form.run env Form.initial []);
                                   Form.req_language := Form.language (Form.run env Form.initial []) |}
              = Resolved (Some pdfBlob)) by reflexivity.
  split; [exact H|].
  exact (proj2 (proj2 (proj2 (form_submit_then_download env [] pdfBlob H)))).
Defined.

(** [X17] Closing the preview closes the modal, drops the preview URL and
    revokes it, so the PDF is no longer reachable through it, and a
    Download click afterwards does nothing. *)
Theorem form_close_revokes_preview (env : Env) (s : Form.State) (u : Form.ObjectURL) :
  Form.pdfPreviewUrl s = Some u ->
  let s' := Form.run env s [Form.ClosePreview] in
  Form.isPreviewOpen s' = false
  /\ Form.pdfPreviewUrl s' = None
  /\ Form.resolveURL u (Form.objectURLs s') = None
  /\ Form.run env s' [Form.DownloadClick] = s'.
Proof.
  intros H s'. subst s'. cbn [Form.run fold_left Form.step].
  unfold Form.handleClosePreview. rewrite H. cbn.
  split; [reflexivity|split; [reflexivity|split; [apply resolveURL_revoke_same|reflexivity]]].
Qed.

Lemma form_close_revokes_preview_witness :
  let env := sampleEnv true smallBlob None true in
  let s := Form.run env Form.initial [Form.Submit; Form.Settle 0%nat] in
  Form.pdfPreviewUrl s = Some (Form.BlobURL 0)
  /\ Form.resolveURL (Form.BlobURL 0) (Form.objectURLs s) = Some pdfBlob
  /\ Form.resolveURL (Form.BlobURL 0) (Form.objectURLs (Form.run env s [Form.ClosePreview])) = None.
Proof.
  intros env s.
  assert (H : Form.pdfPreviewUrl s = Some (Form.BlobURL 0)) by reflexivity.
  split; [exact H|split; [reflexivity|]].
  exact (proj1 (proj2 (proj2 (form_close_revokes_preview env s (Form.BlobURL 0) H)))).
Defined.

(** [X18] When [generatePDF] rejects, the form shows the error alert in the
    language the form had when it was submitted, even if the language was
    switched while the PDF was being generated, and nothing else changes:
    no preview, no object URL. *)
Theorem form_failure_alerts_in_submission_language (env : Env) (s : Form.State)
    (e : Error) (lang : Language) :
  Form.generate env {| Form.req_formData := Form.formData s;
                       Form.req_checkboxes := Form.checkboxes s;
                       Form.req_language := Form.language s |} = Rejected e ->
  let s' := Form.run env s [Form.Submit; Form.ChangeLanguage lang;
                            Form.Settle (length (Form.pending s))] in
  Form.effects s' = app (Form.effects s) [Form.Alert (Form.errorMessage (Form.language s))]
  /\ Form.isPreviewOpen s' = Form.isPreviewOpen s
  /\ Form.pdfPreviewUrl s' = Form.pdfPreviewUrl s
  /\ Form.objectURLs s' = Form.objectURLs s
  /\ Form.pending s' = Form.pending s
  /\ Form.language s' = lang.
Proof.
  intros H s'. subst s'. cbn [Form.run fold_left Form.step].
  unfold Form.resume. cbn [Form.changeLanguage Form.submit Form.pending].
  rewrite nth_error_middle'. rewrite H. cbn.
  rewrite removeAt_middle, app_nil_r.
  repeat split.
Qed.

Lemma form_failure_alerts_in_submission_language_witness :
  Form.generate offlineEnv {| Form.req_formData := Form.formData Form.initial;
                              Form.req_checkboxes := Form.checkboxes Form.initial;
                              Form.req_language := Form.language Form.initial |}
  = Rejected (FetchFailed "/Logo.png")
  /\ Form.effects (Form.run offlineEnv Form.initial
                     [Form.Submit; Form.ChangeLanguage th; Form.Settle 0%nat])
     = [Form.Alert "Error generating PDF. Please try again."].
Proof.
  assert (H : Form.generate offlineEnv {| Form.req_formData := Form.formData Form.initial;
                                          Form.req_checkboxes := Form.checkboxes Form.initial;
                                          Form.req_language := Form.language Form.initial |}
              = Rejected (FetchFailed "/Logo.png")) by reflexivity.
  split; [exact H|].
  exact (proj1 (form_failure_alerts_in_submission_language offlineEnv Form.initial _ th H)).
Defined.

(** [X19] Two submissions that both succeed before the preview is closed
    leak the first object URL: it stays live in every later state, and it is
    never the preview URL again, so [handleClosePreview] never revokes
    it. *)
Theorem form_double_submit_leaks_url (env : Env) (acts : list Form.Action) (b : Blob) :
  let s := Form.run env Form.initial acts in
  Form.generate env {| Form.req_formData := Form.formData s;
                       Form.req_checkboxes := Form.checkboxes s;
                       Form.req_language := Form.language s |} = Resolved (Some b) ->
  let n := length (Form.pending s) in
  forall more,
  let s' := Form.run env s (app [Form.Submit; Form.Submit; Form.Settle n; Form.Settle n] more) in
  Form.resolveURL (Form.BlobURL (Form.nextURL s)) (Form.objectURLs s') = Some b
  /\ Form.pdfPreviewUrl s' <> Some (Form.BlobURL (Form.nextURL s)).
Proof.
  intros s. pose proof (form_preview_run env acts) as [_ [_ F]]. fold s in F. clearbody s.
  intros H n more s'. subst s'. rewrite run_app.
  set (N := Form.nextURL s).
  set (P := fun s1 : Form.State =>
    Form.resolveURL (Form.BlobURL N) (Form.objectURLs s1) = Some b
    /\ Form.pdfPreviewUrl s1 <> Some (Form.BlobURL N)
    /\ (N < Form.nextURL s1)%nat).
  enough (Hinit : P (Form.run env s [Form.Submit; Form.Submit; Form.Settle n; Form.Settle n])).
  { assert (Hstep : forall s1 a, P s1 -> P (Form.step env s1 a)).
    { intros s1 a [R [Pv L]]. unfold P.
      destruct a as [name value|id|lang| |i| | ]; cbn [Form.step];
        try (cbn; split; [exact R|split; [exact Pv|exact L]]).
      - unfold Form.resume. destruct (nth_error (Form.pending s1) i) as [r|];
          [|split; [exact R|split; [exact Pv|exact L]]].
        destruct (Form.generate env r) as [[b'|]|e|]; cbn;
          try (split; [exact R|split; [exact Pv|exact L]]).
        split; [|split].
        + rewrite resolveURL_app, R. reflexivity.
        + intro E. injection E as E. rewrite E in L. exact (Nat.lt_irrefl _ L).
        + apply Nat.lt_lt_succ_r. exact L.
      - unfold Form.handleDownload. destruct (Form.pdfPreviewUrl s1) eqn:E; cbn; rewrite ?E;
          (split; [exact R|split; [exact Pv|exact L]]).
      - unfold Form.handleClosePreview. destruct (Form.pdfPreviewUrl s1) as [[m]|] eqn:E; cbn.
        + split; [|split; [discriminate|exact L]].
          rewrite resolveURL_revoke_other; [exact R|].
          apply url_eqb_neq. intro Em. subst m. exact (Pv eq_refl).
        + split; [exact R|split; [discriminate|exact L]]. }
    destruct (run_preserves env P Hstep more _ Hinit) as [R [Pv _]].
    split; [exact R|exact Pv]. }
  unfold P. subst n.
  set (r := {| Form.req_formData := Form.formData s; Form.req_checkboxes := Form.checkboxes s;
               Form.req_language := Form.language s |}) in H.
  change (Form.run env s [Form.Submit; Form.Submit; Form.Settle (length (Form.pending s));
                          Form.Settle (length (Form.pending s))])
    with (Form.resume env (Form.resume env (Form.submit (Form.submit s))
                             (length (Form.pending s))) (length (Form.pending s))).
  assert (P2 : Form.pending (Form.submit (Form.submit s)) = app (Form.pending s) [r; r])
    by (cbn; rewrite <- app_assoc; reflexivity).
  destruct (resume_resolved env (Form.submit (Form.submit s)) (length (Form.pending s)) r b)
    as [O1 [N1 [U1 Q1]]];
    [rewrite P2; apply nth_error_middle'|exact H|].
  rewrite P2, removeAt_middle in Q1.
  destruct (resume_resolved env (Form.resume env (Form.submit (Form.submit s))
                                   (length (Form.pending s))) (length (Form.pending s)) r b)
    as [O2 [N2 [U2 _]]];
    [rewrite Q1; apply nth_error_middle'|exact H|].
  rewrite O2, U2, N2, O1, N1. cbn [Form.objectURLs Form.nextURL Form.submit].
  subst N. rewrite !resolveURL_app, (resolveURL_fresh _ _ F). cbn. rewrite Nat.eqb_refl.
  split; [reflexivity|split].
  - intro E. injection E as E. exact (Nat.neq_succ_diag_l _ E).
  - apply Nat.lt_lt_succ_r, Nat.lt_succ_diag_r.
Qed.

Lemma form_double_submit_leaks_url_witness :
  let env := sampleEnv true smallBlob None true in
  Form.generate env {| Form.req_formData := Form.formData (Form.run env Form.initial []);
                       Form.req_checkboxes := Form.checkboxes (Form.run env Form.initial []);
                       Form.req_language := Form.language (Form.run env Form.initial []) |}
  = Resolved (Some pdfBlob)
  /\ Form.resolveURL (Form.BlobURL 0)
       (Form.objectURLs (Form.run env (Form.run env Form.initial [])
          (app [Form.Submit; Form.Submit; Form.Settle 0%nat; Form.Settle 0%nat] [Form.ClosePreview])))
     = Some pdfBlob.
Proof.
  intros env.
  assert (H : Form.generate env {| Form.req_formData := Form.formData (Form.run env Form.initial []);
                                   Form.req_checkboxes := Form.checkboxes (Form.run env Form.initial []);
                                   Form.req_language := Form.language (Form.run env Form.initial []) |}
              = Resolved (Some pdfBlob)) by reflexivity.
  split; [exact H|].
  exact (proj1 (form_double_submit_leaks_url env [] pdfBlob H [Form.ClosePreview])).
Defined.
